(** * Weekend-Wizard: the agent decision loop of [agent_fun.py]

    A shallow embedding of the decoder ([llm_json]), the reflection pass
    ([reflect_with_groq]) and the per-message loop of [main], followed by
    the properties the specification states about them.

    Modelling conventions.
    - A Python value that comes out of [json.loads] is a [json]; [None] is
      [JNull], an [int] is [JInt], a [float] is a binary64 [JFloat].
    - A Python [dict] with string keys is an association list in insertion
      order ([pydict]); lookup takes the first binding of a key.
    - A Python [str] is a Rocq [string].  The model is exact on ASCII text;
      other characters are carried as the bytes of their UTF-8 encoding, so
      [len], [lower] and [strip] see bytes there.
    - Code that can raise returns an [outcome]; [try_except] is the
      [try: ... except C: ...] statement.
    - Library and network calls ([json.loads], [str], [requests.post],
      [session.call_tool], the coordinate regular expression) are section
      variables: every theorem holds for all of their behaviours. *)

From Stdlib Require Import String Ascii List ZArith Lia Bool PeanoNat.
From Stdlib Require Import PrimFloat.
From Stdlib Require Uint63.
From Stdlib Require Import DecimalString.
Import ListNotations.
Local Open Scope list_scope.
Local Open Scope string_scope.

(* ------------------------------------------------------------------ *)
(** ** Exceptions *)

(** The exception classes the modelled code can meet.  [RequestException]
    stands for [requests.exceptions.RequestException] and its subclasses
    (connection errors, timeouts, [HTTPError], the [JSONDecodeError] that
    [Response.json] raises); [OtherError] for any other [Exception] raised
    by an external call. *)
Inductive exn : Type :=
| KeyError
| IndexError
| TypeError
| AttributeError
| JSONDecodeError
| EOFError
| RequestException
| OtherError.

Inductive outcome (A : Type) : Type :=
| Ok (a : A)
| Raise (e : exn).

Arguments Ok {A} a.
Arguments Raise {A} e.

Definition bind {A B : Type} (c : outcome A) (k : A -> outcome B) : outcome B :=
  match c with
  | Ok a => k a
  | Raise e => Raise e
  end.

Notation "x <- c ;; k" := (bind c (fun x => k))
  (at level 100, c at next level, right associativity).

(** [try: c except <classes accepted by catches>: handler]. *)
Definition try_except {A : Type} (c : outcome A) (catches : exn -> bool)
  (handler : outcome A) : outcome A :=
  match c with
  | Ok a => Ok a
  | Raise e => if catches e then handler else Raise e
  end.

Definition is_JSONDecodeError (e : exn) : bool :=
  match e with JSONDecodeError => true | _ => false end.

Definition is_RequestException (e : exn) : bool :=
  match e with RequestException => true | _ => false end.

(** [except Exception] and the bare [except:] of the source. *)
Definition any_exception (e : exn) : bool := true.

(* ------------------------------------------------------------------ *)
(** ** Python values *)

#[local] Unset Elimination Schemes.
Inductive json : Type :=
| JNull
| JBool (b : bool)
| JInt (z : Z)
| JFloat (f : float)
| JStr (s : string)
| JList (l : list json)
| JDict (d : list (string * json)).
#[local] Set Elimination Schemes.

Definition pydict : Type := list (string * json).

(** [k in d] and [d.get(k)] / [d[k]]. *)
Fixpoint dict_get (d : pydict) (k : string) : option json :=
  match d with
  | [] => None
  | (k', v) :: r => if String.eqb k' k then Some v else dict_get r k
  end.

Definition dict_has (d : pydict) (k : string) : bool :=
  match dict_get d k with Some _ => true | None => false end.

(** [d.get(k, default)]. *)
Definition dict_get_default (d : pydict) (k : string) (default : json) : json :=
  match dict_get d k with Some v => v | None => default end.

(** Truth value of a Python object ([if v:], [not v], [any]). *)
Definition py_truthy (v : json) : bool :=
  match v with
  | JNull => false
  | JBool b => b
  | JInt z => negb (Z.eqb z 0)
  | JFloat f => negb (PrimFloat.eqb f 0%float)
  | JStr s => negb (String.eqb s "")
  | JList l => match l with [] => false | _ => true end
  | JDict d => match d with [] => false | _ => true end
  end.

(** [v == "text"]. *)
Definition py_eq_str (v : json) (s : string) : bool :=
  match v with JStr s' => String.eqb s' s | _ => false end.

(** [v == n] for an [int] literal [n]: [bool] is a subclass of [int]. *)
Definition py_eq_int (v : json) (n : Z) : bool :=
  match v with
  | JInt z => Z.eqb z n
  | JBool b => Z.eqb (if b then 1 else 0) n
  | JFloat f => PrimFloat.eqb f (PrimFloat.of_uint63 (Uint63.of_Z n))
  | _ => false
  end.

(** [v > n] for a small non-negative [int] literal [n]; ordering a number
    against a string, [None], a list or a dict raises [TypeError]. *)
Definition py_gt_int (v : json) (n : Z) : outcome bool :=
  match v with
  | JInt z => Ok (Z.ltb n z)
  | JBool b => Ok (Z.ltb n (if b then 1 else 0))
  | JFloat f => Ok (PrimFloat.ltb (PrimFloat.of_uint63 (Uint63.of_Z n)) f)
  | _ => Raise TypeError
  end.

(** [len(v)]. *)
Definition py_len (v : json) : outcome nat :=
  match v with
  | JStr s => Ok (String.length s)
  | JList l => Ok (List.length l)
  | JDict d => Ok (List.length d)
  | _ => Raise TypeError
  end.

(** Whether [hash(v)] succeeds, as [v in some_dict] needs. *)
Definition py_hashable (v : json) : bool :=
  match v with
  | JList _ | JDict _ => false
  | _ => true
  end.

(** [v[key]] for a string key. *)
Definition py_getitem_key (v : json) (key : string) : outcome json :=
  match v with
  | JDict d => match dict_get d key with Some x => Ok x | None => Raise KeyError end
  | _ => Raise TypeError
  end.

(** [v[0]]. *)
Definition py_getitem_0 (v : json) : outcome json :=
  match v with
  | JList [] => Raise IndexError
  | JList (x :: _) => Ok x
  | JStr EmptyString => Raise IndexError
  | JStr (String c _) => Ok (JStr (String c EmptyString))
  | JDict _ => Raise KeyError
  | _ => Raise TypeError
  end.

(* ------------------------------------------------------------------ *)
(** ** Python string operations *)

Module PyStr.

Definition lower_char (c : ascii) : ascii :=
  let n := nat_of_ascii c in
  if andb (Nat.leb 65 n) (Nat.leb n 90) then ascii_of_nat (n + 32) else c.

(** [s.lower()]. *)
Fixpoint lower (s : string) : string :=
  match s with
  | EmptyString => EmptyString
  | String c r => String (lower_char c) (lower r)
  end.

(** [sub in s]. *)
Fixpoint contains (sub s : string) : bool :=
  if String.prefix sub s then true
  else match s with
       | EmptyString => false
       | String _ r => contains sub r
       end.

(** [sep.join(parts)]. *)
Fixpoint join (sep : string) (parts : list string) : string :=
  match parts with
  | [] => ""
  | [p] => p
  | p :: r => p ++ sep ++ join sep r
  end.

(** The characters [str.strip()] removes: tab, line feed, vertical tab,
    form feed, carriage return, the four separators 28..31 and space. *)
Definition is_space (c : ascii) : bool :=
  let n := nat_of_ascii c in
  orb (andb (Nat.leb 9 n) (Nat.leb n 13))
      (orb (andb (Nat.leb 28 n) (Nat.leb n 31)) (Nat.eqb n 32)).

Fixpoint lstrip (s : string) : string :=
  match s with
  | EmptyString => EmptyString
  | String c r => if is_space c then lstrip r else s
  end.

Fixpoint rstrip (s : string) : string :=
  match s with
  | EmptyString => EmptyString
  | String c r =>
      match rstrip r with
      | EmptyString => if is_space c then EmptyString else String c EmptyString
      | r' => String c r'
      end
  end.

(** [s.strip()]. *)
Definition strip (s : string) : string := rstrip (lstrip s).

Fixpoint drop (n : nat) (s : string) : string :=
  match n, s with
  | O, _ => s
  | S _, EmptyString => EmptyString
  | S n', String _ r => drop n' r
  end.

(** [s.replace(old, new)] for a non-empty [old]: occurrences are replaced
    from the left and do not overlap.  [skip] counts the characters of a
    match still to be passed over. *)
Fixpoint replace_from (old new : string) (skip : nat) (s : string) : string :=
  match s with
  | EmptyString => EmptyString
  | String c r =>
      match skip with
      | S k => replace_from old new k r
      | O =>
          if String.prefix old s
          then new ++ replace_from old new (String.length old - 1) r
          else String c (replace_from old new 0 r)
      end
  end.

Definition replace (old new s : string) : string := replace_from old new 0 s.

(** [s[:n]]. *)
Definition take (n : nat) (s : string) : string := String.substring 0 n s.

End PyStr.

(* ------------------------------------------------------------------ *)
(** ** The pattern search of the decoder *)

(** The longest prefix of [s] that ends with the character [close]. *)
Fixpoint upto_last (close : ascii) (s : string) : option string :=
  match s with
  | EmptyString => None
  | String c r =>
      match upto_last close r with
      | Some p => Some (String c p)
      | None => if Ascii.eqb c close then Some (String c EmptyString) else None
      end
  end.

(** [re.search(r'(\{.*\}|\[.*\])', content, re.DOTALL)], returning
    [json_match.group()]: at the leftmost position where one alternative
    matches, an opening brace up to the last closing brace, or else an
    opening bracket up to the last closing bracket. *)
Fixpoint re_search_json (content : string) : option string :=
  match content with
  | EmptyString => None
  | String c r =>
      if Ascii.eqb c "{"%char then
        match upto_last "}"%char r with
        | Some p => Some (String c p)
        | None => re_search_json r
        end
      else if Ascii.eqb c "["%char then
        match upto_last "]"%char r with
        | Some p => Some (String c p)
        | None => re_search_json r
        end
      else re_search_json r
  end.

(* ------------------------------------------------------------------ *)
(** ** Actions *)

(** [{"action": "final", "answer": answer}]. *)
Definition final_action (answer : json) : pydict :=
  [("action", JStr "final"); ("answer", answer)].

(** [{"action": name, "args": args}]. *)
Definition tool_action (name : json) (args : json) : pydict :=
  [("action", name); ("args", args)].

Definition empty_list_answer : string := "I received an empty response.".
Definition empty_answer_fallback : string :=
  "I have gathered the information you requested.".
Definition status_apology : string :=
  "Error contacting weather service. Please try again.".
Definition connection_apology : string :=
  "Sorry, I'm having trouble connecting to services. Please try again.".

(** The tool names the decoder looks for in text it could not parse. *)
Definition heuristic_tool_names : list string :=
  ["get_weather"; "book_recs"; "random_joke"; "random_dog"; "city_to_coords"; "trivia"].

(** The loop [for item in parsed: if isinstance(item, dict) and "action"
    in item: return item]. *)
Fixpoint first_action_item (l : list json) : option pydict :=
  match l with
  | [] => None
  | JDict d :: r => if dict_has d "action" then Some d else first_action_item r
  | _ :: r => first_action_item r
  end.

Section Decoder.

(** [json.loads]: [None] is a [json.JSONDecodeError]. *)
Variable json_loads : string -> option json.
(** [str(v)]. *)
Variable py_str : json -> string.
(** [re.search(r'(-?\d+\.\d+)[,\s]+(-?\d+\.\d+)', content)] followed by
    [float] on both groups. *)
Variable re_search_coords : string -> option (float * float).

Definition loads (s : string) : outcome json :=
  match json_loads s with
  | Some v => Ok v
  | None => Raise JSONDecodeError
  end.

(** Lines 108-149: the value [json.loads] returned. *)
Definition decode_parsed (parsed : json) : pydict :=
  match parsed with
  | JList l =>
      match first_action_item l with
      | Some item => item
      | None =>
          match l with
          | first :: _ => final_action (JStr (py_str first))
          | [] => final_action (JStr empty_list_answer)
          end
      end
  | JDict d =>
      if dict_has d "action" then
        let action := dict_get_default d "action" (JStr "") in
        let args := dict_get_default d "args" (JDict []) in
        if py_eq_str action "final" then
          let answer := dict_get_default d "answer" (JStr "") in
          let answer := if negb (py_truthy answer)
                        then JStr empty_answer_fallback else answer in
          final_action answer
        else
          let args := match args with JDict _ => args | _ => JDict [] end in
          tool_action action args
      else
        match dict_get d "answer" with
        | Some v => final_action v
        | None =>
            match dict_get d "response" with
            | Some v => final_action v
            | None => final_action (JStr (py_str parsed))
            end
        end
  | _ => final_action (JStr (py_str parsed))
  end.

(** Lines 158-167: the embedded object or array, parsed again; [None]
    when control falls through to the heuristics. *)
Definition decode_embedded (content : string) : option pydict :=
  match re_search_json content with
  | None => None
  | Some matched =>
      match json_loads matched with
      | Some (JDict d) => if dict_has d "action" then Some d else None
      | Some (JList (JDict d :: _)) => if dict_has d "action" then Some d else None
      | _ => None
      end
  end.

(** The body of [for tool_name in [...]] once [tool_name in
    content.lower()] holds (lines 176-185). *)
Definition heuristic_call (tool_name content : string) : pydict :=
  match re_search_coords content, String.eqb tool_name "get_weather" with
  | Some (lat, lon), true =>
      tool_action (JStr "get_weather")
        (JDict [("latitude", JFloat lat); ("longitude", JFloat lon)])
  | _, _ =>
      if andb (String.eqb tool_name "book_recs")
              (PyStr.contains "mystery" (PyStr.lower content))
      then tool_action (JStr "book_recs")
             (JDict [("topic", JStr "mystery"); ("limit", JInt 2)])
      else tool_action (JStr tool_name) (JDict [])
  end.

(** Lines 174-188. *)
Fixpoint scan_tool_names (names : list string) (content : string) : pydict :=
  match names with
  | [] => final_action (JStr content)
  | tool_name :: r =>
      if PyStr.contains tool_name (PyStr.lower content)
      then heuristic_call tool_name content
      else scan_tool_names r content
  end.

(** Line 170. *)
Definition looks_like_answer (content : string) : bool :=
  orb (PyStr.contains "weather" (PyStr.lower content))
      (orb (PyStr.contains "temperature" (PyStr.lower content))
           (PyStr.contains "answer" (PyStr.lower content))).

(** Lines 169-188. *)
Definition decode_heuristic (content : string) : pydict :=
  if looks_like_answer content
  then final_action (JStr content)
  else scan_tool_names heuristic_tool_names content.

(** Lines 151-188: the handler of [json.JSONDecodeError]. *)
Definition decode_fallback (content : string) : pydict :=
  match decode_embedded content with
  | Some d => d
  | None => decode_heuristic content
  end.

(** Line 102. *)
Definition clean (content : string) : string :=
  PyStr.strip (PyStr.replace "```" "" (PyStr.replace "```json" "" content)).

(** Lines 101-188 of [llm_json]: from the text of the model's message to
    the action handed to the loop. *)
Definition decode (raw : string) : outcome pydict :=
  let content := clean raw in
  try_except
    (parsed <- loads content ;; Ok (decode_parsed parsed))
    is_JSONDecodeError
    (Ok (decode_fallback content)).

End Decoder.

(* ------------------------------------------------------------------ *)
(** ** Conversation state and the HTTP boundary *)

Inductive role : Type := System | User | Assistant.

(** One entry of [history]: [{"role": ..., "content": ...}]. *)
Record turn : Type := mkTurn { turn_role : role; turn_content : json }.

(** What the code reads of a [requests.Response]. *)
Record response : Type := mkResponse { status_code : Z; text : string }.

Definition as_str (v : json) : outcome string :=
  match v with
  | JStr s => Ok s
  | _ => Raise AttributeError
  end.

Definition sentinel : string := "looks good".

Section Model.

Variable json_loads : string -> option json.
Variable py_str : json -> string.
Variable re_search_coords : string -> option (float * float).

(** [response.json()]; a body that is not JSON raises
    [requests.exceptions.JSONDecodeError], a [RequestException]. *)
Definition response_json (r : response) : outcome json :=
  match json_loads (text r) with
  | Some v => Ok v
  | None => Raise RequestException
  end.

(** [result["choices"][0]["message"]["content"]]. *)
Definition message_content (result : json) : outcome json :=
  choices <- py_getitem_key result "choices" ;;
  first <- py_getitem_0 choices ;;
  message <- py_getitem_key first "message" ;;
  py_getitem_key message "content".

Section LlmJson.

(** [requests.post] to the chat-completions endpoint with the
    conversation so far. *)
Variable post_chat : list turn -> outcome response.

(** [llm_json], lines 57-193. *)
Definition llm_json (messages : list turn) : outcome pydict :=
  try_except
    (response <- post_chat messages ;;
     if negb (Z.eqb (status_code response) 200)
     then Ok (final_action (JStr status_apology))
     else
       result <- response_json response ;;
       content <- message_content result ;;
       raw <- as_str content ;;
       decode json_loads py_str re_search_coords raw)
    is_RequestException
    (Ok (final_action (JStr connection_apology))).

End LlmJson.

Section Reflection.

(** [requests.post] of the reflection prompt with the answer. *)
Variable post_reflect : json -> outcome response.

(** [response.raise_for_status()]. *)
Definition raise_for_status (r : response) : outcome unit :=
  if andb (Z.leb 400 (status_code r)) (Z.ltb (status_code r) 600)
  then Raise RequestException
  else Ok tt.

(** The [try] block of [reflect_with_groq], lines 222-229. *)
Definition reflect_request (answer : json) : outcome string :=
  response <- post_reflect answer ;;
  _ <- raise_for_status response ;;
  result <- response_json response ;;
  content <- message_content result ;;
  s <- as_str content ;;
  Ok (PyStr.strip s).

(** [reflect_with_groq], lines 195-232. *)
Definition reflect_with_groq (answer : json) : outcome string :=
  n <- py_len answer ;;
  if Nat.ltb n 200 then Ok sentinel
  else try_except (reflect_request answer) any_exception (Ok sentinel).

End Reflection.

(* ---------------------------------------------------------------- *)
(** *** Gathered information (lines 273-279 and 348-389) *)

(** The [gathered_info] dictionary; [JNull] is [None]. *)
Record gathered_info : Type := mkGathered {
  g_weather : json;
  g_books : json;
  g_joke : json;
  g_dog : json;
  g_trivia : json
}.

Definition no_info : gathered_info := mkGathered JNull JNull JNull JNull JNull.

(** [gathered_info.items()], in insertion order. *)
Definition gathered_items (g : gathered_info) : list (string * json) :=
  [("weather", g_weather g); ("books", g_books g); ("joke", g_joke g);
   ("dog", g_dog g); ("trivia", g_trivia g)].

Definition gathered_values (g : gathered_info) : list json :=
  map snd (gathered_items g).

(** The receiver of [.get]: anything but a [dict] has no such method. *)
Definition as_dict (v : json) : outcome pydict :=
  match v with
  | JDict d => Ok d
  | _ => Raise AttributeError
  end.

(** A [try: ... except: fallback] around an extraction. *)
Definition recover (c : outcome json) (fallback : json) : json :=
  match c with
  | Ok v => v
  | Raise _ => fallback
  end.

Definition weather_desc (code : json) : outcome string :=
  if orb (py_eq_int code 0) (py_eq_int code 1) then Ok "sunny"
  else if orb (py_eq_int code 2) (py_eq_int code 3) then Ok "cloudy"
  else rainy <- py_gt_int code 50 ;; Ok (if rainy then "rainy" else "clear").

Definition degrees : string := "Â°C, ".

Definition extract_weather (payload : string) : outcome json :=
  weather_data <- loads json_loads payload ;;
  d <- as_dict weather_data ;;
  let temp := dict_get_default d "temperature_2m" (JStr "N/A") in
  let code := dict_get_default d "weather_code" (JInt 0) in
  weather_desc <- weather_desc code ;;
  Ok (JStr (py_str temp ++ degrees ++ weather_desc)).

(** The items of [v[:2]] as the comprehension walks them. *)
Definition slice2 (v : json) : outcome (list json) :=
  match v with
  | JList l => Ok (firstn 2 l)
  | JStr s =>
      Ok (map (fun c => JStr (String c EmptyString))
              (list_ascii_of_string (PyStr.take 2 s)))
  | _ => Raise TypeError
  end.

(** [[b.get('title', 'Unknown') for b in books]]. *)
Fixpoint titles_of (books : list json) : outcome (list json) :=
  match books with
  | [] => Ok []
  | b :: r =>
      d <- as_dict b ;;
      rest <- titles_of r ;;
      Ok (dict_get_default d "title" (JStr "Unknown") :: rest)
  end.

(** The argument of [str.join]: every item has to be a [str]. *)
Fixpoint str_items (l : list json) : outcome (list string) :=
  match l with
  | [] => Ok []
  | JStr s :: r => rest <- str_items r ;; Ok (s :: rest)
  | _ :: _ => Raise TypeError
  end.

Definition extract_books (payload : string) : outcome json :=
  book_data <- loads json_loads payload ;;
  d <- as_dict book_data ;;
  books <- slice2 (dict_get_default d "results" (JList [])) ;;
  book_titles <- titles_of books ;;
  match book_titles with
  | [] => Ok (JStr "Mystery books")
  | _ => titles <- str_items book_titles ;; Ok (JStr (PyStr.join ", " titles))
  end.

Definition extract_field (payload field : string) (default : json) : outcome json :=
  data <- loads json_loads payload ;;
  d <- as_dict data ;;
  Ok (dict_get_default d field default).

(** [question[:100] + "..." if len(question) > 100 else question]. *)
Definition trivia_summary (question : json) : outcome json :=
  n <- py_len question ;;
  if Nat.ltb 100 n then
    match question with
    | JStr s => Ok (JStr (PyStr.take 100 s ++ "..."))
    | _ => Raise TypeError
    end
  else Ok question.

Definition extract_trivia (payload : string) : outcome json :=
  question <- extract_field payload "question" (JStr "") ;;
  trivia_summary question.

(** Lines 348-389: what a successful call of [tname] adds. *)
Definition gather (tname payload : string) (g : gathered_info) : gathered_info :=
  if String.eqb tname "get_weather" then
    mkGathered (recover (extract_weather payload) (JStr "Weather data received"))
               (g_books g) (g_joke g) (g_dog g) (g_trivia g)
  else if String.eqb tname "book_recs" then
    mkGathered (g_weather g)
               (recover (extract_books payload) (JStr "Mystery book recommendations"))
               (g_joke g) (g_dog g) (g_trivia g)
  else if String.eqb tname "random_joke" then
    mkGathered (g_weather g) (g_books g)
               (recover (extract_field payload "joke" (JStr "A funny joke!"))
                        (JStr "A lighthearted joke"))
               (g_dog g) (g_trivia g)
  else if String.eqb tname "random_dog" then
    mkGathered (g_weather g) (g_books g) (g_joke g)
               (recover (extract_field payload "message" (JStr "cute dog picture"))
                        (JStr "A cute dog picture URL"))
               (g_trivia g)
  else if String.eqb tname "trivia" then
    mkGathered (g_weather g) (g_books g) (g_joke g) (g_dog g)
               (recover (extract_trivia payload) (JStr "Trivia question"))
  else g.

(* ---------------------------------------------------------------- *)
(** *** The per-message loop of [main] (lines 270-415) *)

(** What [session.call_tool] hands back: the texts of [result.content]
    and [json.dumps(result.model_dump())]. *)
Record tool_result : Type := mkToolResult {
  result_content : list string;
  result_dump : string
}.

(** A call either returns or raises; [details] is [str(e)]. *)
Inductive tool_outcome : Type :=
| ToolReturns (r : tool_result)
| ToolRaises (details : string).

(** The calls the loop makes, in order. *)
Inductive event : Type :=
| DecideCall (messages : list turn)
| ReflectCall (answer : json)
| ToolCall (name : string) (args : json).

Record state : Type := mkState {
  history : list turn;
  gathered : gathered_info;
  trace : list event
}.

(** How one pass through the loop body ends. *)
Inductive control : Type :=
| Continue
| Break
| Uncaught (e : exn).

Definition append_turn (r : role) (c : json) (st : state) : state :=
  mkState (history st ++ [mkTurn r c])%list (gathered st) (trace st).

Definition log (ev : event) (st : state) : state :=
  mkState (history st) (gathered st) (trace st ++ [ev])%list.

Definition set_gathered (g : gathered_info) (st : state) : state :=
  mkState (history st) g (trace st).

Definition nl : string := String (ascii_of_nat 10) EmptyString.

Definition weather_label : string := "ðŸŒ¤ï¸ Weather: ".
Definition books_label : string := "ðŸ“š Book suggestions: ".
Definition joke_label : string := "ðŸ˜„ Joke: ".
Definition dog_label : string := "ðŸ¶ Dog picture: ".
Definition plan_title : string :=
  "Here's your cozy Saturday plan for New York!" ++ nl ++ nl.
Definition budget_apology : string :=
  "I tried to gather information but encountered some issues. Let me summarize what I have.".

Section Loop.

(** [llm_json(history)] of line 283. *)
Variable decide : list turn -> outcome pydict.
Variable post_reflect : json -> outcome response.
(** [await session.call_tool(tname, args)]; the conversation so far
    stands for the moment of the call. *)
Variable call_tool : list turn -> string -> json -> tool_outcome.
(** [list(tool_index.keys())]. *)
Variable tool_names : list string.

(** Line 293. *)
Definition wants_combined (user : string) : bool :=
  andb (PyStr.contains "weather" (PyStr.lower user))
       (andb (PyStr.contains "book" (PyStr.lower user))
             (PyStr.contains "joke" (PyStr.lower user))).

Definition labelled (label : string) (value : json) : list string :=
  if py_truthy value then [label ++ py_str value] else [].

(** Lines 294-302. *)
Definition final_answer_parts (g : gathered_info) : list string :=
  (labelled weather_label (g_weather g) ++ labelled books_label (g_books g)
   ++ labelled joke_label (g_joke g) ++ labelled dog_label (g_dog g))%list.

(** Lines 290-305. *)
Definition combine_answer (user : string) (g : gathered_info) (answer : json) : json :=
  if existsb py_truthy (gathered_values g) then
    if wants_combined user then
      match final_answer_parts g with
      | [] => answer
      | parts => JStr (plan_title ++ PyStr.join (nl ++ nl) parts)
      end
    else answer
  else answer.

(** Lines 307-317. *)
Definition review_and_finish (answer : json) (st : state) : state * control :=
  match py_len answer with
  | Raise e => (st, Uncaught e)
  | Ok n =>
      if Nat.ltb 150 n then
        let st := log (ReflectCall answer) st in
        match reflect_with_groq post_reflect answer with
        | Raise e => (st, Uncaught e)
        | Ok reflection_result =>
            let answer :=
              if negb (String.eqb (PyStr.lower reflection_result) sentinel)
              then JStr reflection_result else answer in
            (append_turn Assistant answer st, Break)
        end
      else (append_turn Assistant answer st, Break)
  end.

(** Lines 287-317: the branch of a final decision. *)
Definition finish (user : string) (decision : pydict) (st : state) : state * control :=
  let answer := dict_get_default decision "answer" (JStr "") in
  review_and_finish (combine_answer user (gathered st) answer) st.

Definition available : string := py_str (JList (map JStr tool_names)).

(** [tname in tool_index] for a hashable [tname]: the keys are strings. *)
Definition registered (tname : json) : option string :=
  match tname with
  | JStr s => if existsb (String.eqb s) tool_names then Some s else None
  | _ => None
  end.

(** Lines 335-396: the call of a registered tool. *)
Definition invoke_tool (tname : string) (args : json) (st : state) : state :=
  let st := log (ToolCall tname args) st in
  match call_tool (history st) tname args with
  | ToolRaises details =>
      append_turn Assistant (JStr ("Error with " ++ tname ++ ": " ++ details)) st
  | ToolReturns result =>
      let payload :=
        match result_content result with
        | first :: _ => first
        | [] => result_dump result
        end in
      let tool_response := "[tool:" ++ tname ++ "] " ++ payload in
      append_turn Assistant (JStr tool_response)
        (set_gathered (gather tname payload (gathered st)) st)
  end.

(** Lines 401-404. *)
Fixpoint final_parts (items : list (string * json)) : list string :=
  match items with
  | [] => []
  | (key, value) :: r =>
      if py_truthy value
      then (key ++ ": " ++ py_str value) :: final_parts r
      else final_parts r
  end.

(** Lines 406-409. *)
Definition budget_answer (g : gathered_info) : string :=
  match final_parts (gathered_items g) with
  | [] => budget_apology
  | parts => "Based on what I found:" ++ nl ++ PyStr.join nl parts
  end.

(** Lines 398-415. *)
Definition budget_check (step : nat) (st : state) : state * control :=
  if Nat.leb 11 step
  then (append_turn Assistant (JStr (budget_answer (gathered st))) st, Break)
  else (st, Continue).

(** Lines 319-415: the branch of a decision that is not final. *)
Definition dispatch (step : nat) (decision : pydict) (st : state) : state * control :=
  let tname := dict_get_default decision "action" JNull in
  let args := dict_get_default decision "args" (JDict []) in
  if negb (py_truthy tname) then
    (append_turn Assistant
       (JStr ("Need to specify an action. Available: " ++ available)) st,
     Continue)
  else if negb (py_hashable tname) then (st, Uncaught TypeError)
  else
    match registered tname with
    | None =>
        (append_turn Assistant
           (JStr ("Tool '" ++ py_str tname ++ "' not found. Available: " ++ available)) st,
         Continue)
    | Some name => budget_check step (invoke_tool name args st)
    end.

Definition is_final (decision : pydict) : bool :=
  match dict_get decision "action" with
  | Some action => py_eq_str action "final"
  | None => false
  end.

(** Lines 282-415: one pass through the body of [for step in range(12)]. *)
Definition loop_body (user : string) (step : nat) (st : state) : state * control :=
  let st := log (DecideCall (history st)) st in
  match decide (history st) with
  | Raise e => (st, Uncaught e)
  | Ok decision =>
      if is_final decision then finish user decision st
      else dispatch step decision st
  end.

(** How the loop of one message ends. *)
Inductive exit : Type :=
| Completed
| Crashed (e : exn).

Fixpoint for_steps (user : string) (steps : list nat) (st : state) : state * exit :=
  match steps with
  | [] => (st, Completed)
  | step :: r =>
      match loop_body user step st with
      | (st', Continue) => for_steps user r st'
      | (st', Break) => (st', Completed)
      | (st', Uncaught e) => (st', Crashed e)
      end
  end.

Definition max_steps : nat := 12.

(** Lines 270-415: one user message. *)
Definition run_message (user : string) (st : state) : state * exit :=
  for_steps user (seq 0 max_steps)
    (set_gathered no_info (append_turn User (JStr user) st)).

(** Line 263. *)
Definition is_exit (user : string) : bool :=
  orb (String.eqb user "")
      (existsb (String.eqb (PyStr.lower user)) ["exit"; "quit"; "q"]).

(** How the session ends: the user left, or an exception went up
    through [main] ([input] raises [EOFError] at the end of input). *)
Inductive session_end : Type :=
| UserLeft
| SessionCrashed (e : exn).

(** Lines 261-415: the [while True] loop over the lines typed. *)
Fixpoint session_loop (lines : list string) (st : state) : state * session_end :=
  match lines with
  | [] => (st, SessionCrashed EOFError)
  | line :: r =>
      let user := PyStr.strip line in
      if is_exit user then (st, UserLeft)
      else
        match run_message user st with
        | (st', Completed) => session_loop r st'
        | (st', Crashed e) => (st', SessionCrashed e)
        end
  end.

(** Line 259 onwards: a session, from the system prompt. *)
Definition session (system_prompt : string) (lines : list string) : state * session_end :=
  session_loop lines (mkState [mkTurn System (JStr system_prompt)] no_info []).

End Loop.

(** [main]'s loop with [llm_json] as it is wired in the source. *)
Definition agent_session (post_chat : list turn -> outcome response)
  (post_reflect : json -> outcome response)
  (call_tool : list turn -> string -> json -> tool_outcome)
  (tool_names : list string) (system_prompt : string) (lines : list string)
  : state * session_end :=
  session (llm_json post_chat) post_reflect call_tool tool_names system_prompt lines.

End Model.

(* ------------------------------------------------------------------ *)
(** ** Reference library functions for the examples

    The theorems below hold for every [json_loads] and [py_str].  To run
    the model on concrete texts the examples use the following instances,
    which agree with Python on the fragment they cover: JSON without
    fractions, exponents, [\u] escapes and the constants [NaN] and
    [Infinity]; [str] of values without floats whose strings need no
    escaping.  Outside the fragment [loads] answers [None]. *)

Module Ref.

Definition dquote : ascii := ascii_of_nat 34.
Definition backslash : ascii := ascii_of_nat 92.

(** Writes a JSON text with apostrophes in place of double quotes. *)
Fixpoint js (s : string) : string :=
  match s with
  | EmptyString => EmptyString
  | String c r => String (if Ascii.eqb c "'"%char then dquote else c) (js r)
  end.

Definition is_ws (c : ascii) : bool :=
  let n := nat_of_ascii c in
  orb (Nat.eqb n 32) (orb (Nat.eqb n 9) (orb (Nat.eqb n 10) (Nat.eqb n 13))).

Fixpoint skip_ws (s : string) : string :=
  match s with
  | EmptyString => EmptyString
  | String c r => if is_ws c then skip_ws r else s
  end.

Definition is_digit (c : ascii) : bool :=
  let n := nat_of_ascii c in andb (Nat.leb 48 n) (Nat.leb n 57).

Definition unescape (c : ascii) : option ascii :=
  if Ascii.eqb c dquote then Some dquote
  else if Ascii.eqb c backslash then Some backslash
  else if Ascii.eqb c "/"%char then Some "/"%char
  else if Ascii.eqb c "n"%char then Some (ascii_of_nat 10)
  else if Ascii.eqb c "t"%char then Some (ascii_of_nat 9)
  else if Ascii.eqb c "r"%char then Some (ascii_of_nat 13)
  else if Ascii.eqb c "b"%char then Some (ascii_of_nat 8)
  else if Ascii.eqb c "f"%char then Some (ascii_of_nat 12)
  else None.

(** The rest of a string literal, after its opening quote. *)
Fixpoint parse_string (s : string) : option (string * string) :=
  match s with
  | EmptyString => None
  | String c r =>
      if Ascii.eqb c dquote then Some (EmptyString, r)
      else if Ascii.eqb c backslash then
        match r with
        | EmptyString => None
        | String e r' =>
            match unescape e, parse_string r' with
            | Some ch, Some (body, rest) => Some (String ch body, rest)
            | _, _ => None
            end
        end
      else if Nat.ltb (nat_of_ascii c) 32 then None
      else
        match parse_string r with
        | Some (body, rest) => Some (String c body, rest)
        | None => None
        end
  end.

Fixpoint parse_digits (acc : Z) (s : string) : Z * string :=
  match s with
  | EmptyString => (acc, s)
  | String c r =>
      if is_digit c
      then parse_digits (10 * acc + Z.of_nat (nat_of_ascii c - 48)) r
      else (acc, s)
  end.

(** [0] or a digit string without a leading zero, not followed by a
    fraction or an exponent. *)
Definition parse_nat (s : string) : option (Z * string) :=
  match s with
  | EmptyString => None
  | String c r =>
      if negb (is_digit c) then None
      else
        let '(n, rest) := parse_digits 0 s in
        let leading_zero :=
          andb (Ascii.eqb c "0"%char)
               (match r with String d _ => is_digit d | EmptyString => false end) in
        let continues :=
          match rest with
          | String d _ =>
              orb (Ascii.eqb d "."%char) (orb (Ascii.eqb d "e"%char) (Ascii.eqb d "E"%char))
          | EmptyString => false
          end in
        if orb leading_zero continues then None else Some (n, rest)
  end.

Definition expect (word : string) (v : json) (s : string) : option (json * string) :=
  if String.prefix word s then Some (v, PyStr.drop (String.length word) s) else None.

(** [dict[k] = v]: a key met again keeps its place and takes the new value. *)
Fixpoint dict_set (d : pydict) (k : string) (v : json) : pydict :=
  match d with
  | [] => [(k, v)]
  | (k', v') :: r => if String.eqb k' k then (k, v) :: r else (k', v') :: dict_set r k v
  end.

Fixpoint parse_value (fuel : nat) (s : string) {struct fuel} : option (json * string) :=
  match fuel with
  | O => None
  | S n =>
      match skip_ws s with
      | EmptyString => None
      | String c r =>
          if Ascii.eqb c "["%char then
            match skip_ws r with
            | String "]"%char r' => Some (JList [], r')
            | _ =>
                match parse_elements n r with
                | Some (l, rest) => Some (JList l, rest)
                | None => None
                end
            end
          else if Ascii.eqb c "{"%char then
            match skip_ws r with
            | String "}"%char r' => Some (JDict [], r')
            | _ =>
                match parse_members n [] r with
                | Some (d, rest) => Some (JDict d, rest)
                | None => None
                end
            end
          else if Ascii.eqb c dquote then
            match parse_string r with
            | Some (body, rest) => Some (JStr body, rest)
            | None => None
            end
          else if Ascii.eqb c "-"%char then
            match parse_nat r with
            | Some (z, rest) => Some (JInt (- z), rest)
            | None => None
            end
          else if is_digit c then
            match parse_nat (String c r) with
            | Some (z, rest) => Some (JInt z, rest)
            | None => None
            end
          else if Ascii.eqb c "n"%char then expect "null" JNull (String c r)
          else if Ascii.eqb c "t"%char then expect "true" (JBool true) (String c r)
          else if Ascii.eqb c "f"%char then expect "false" (JBool false) (String c r)
          else None
      end
  end
with parse_elements (fuel : nat) (s : string) {struct fuel} : option (list json * string) :=
  match fuel with
  | O => None
  | S n =>
      match parse_value n s with
      | None => None
      | Some (v, rest) =>
          match skip_ws rest with
          | String ","%char r =>
              match parse_elements n r with
              | Some (l, rest') => Some (v :: l, rest')
              | None => None
              end
          | String "]"%char r => Some ([v], r)
          | _ => None
          end
      end
  end
with parse_members (fuel : nat) (acc : pydict) (s : string) {struct fuel}
  : option (pydict * string) :=
  match fuel with
  | O => None
  | S n =>
      match skip_ws s with
      | String c r =>
          if negb (Ascii.eqb c dquote) then None
          else
            match parse_string r with
            | None => None
            | Some (key, rest) =>
                match skip_ws rest with
                | String ":"%char r1 =>
                    match parse_value n r1 with
                    | None => None
                    | Some (v, rest1) =>
                        let acc := dict_set acc key v in
                        match skip_ws rest1 with
                        | String ","%char r2 => parse_members n acc r2
                        | String "}"%char r2 => Some (acc, r2)
                        | _ => None
                        end
                    end
                | _ => None
                end
            end
      | EmptyString => None
      end
  end.

(** [json.loads] on the fragment. *)
Definition loads (s : string) : option json :=
  match parse_value (2 * String.length s + 2) s with
  | Some (v, rest) =>
      match skip_ws rest with
      | EmptyString => Some v
      | _ => None
      end
  | None => None
  end.

Definition quoted (s : string) : string := "'" ++ s ++ "'".

(** [repr(v)]; floats are outside the fragment and print as [?]. *)
Fixpoint repr (v : json) : string :=
  match v with
  | JNull => "None"
  | JBool true => "True"
  | JBool false => "False"
  | JInt z => NilEmpty.string_of_int (Z.to_int z)
  | JFloat _ => "?"
  | JStr s => quoted s
  | JList l => "[" ++ PyStr.join ", " (map repr l) ++ "]"
  | JDict d =>
      "{" ++ PyStr.join ", " (map (fun kv => let '(k, x) := kv in quoted k ++ ": " ++ repr x) d)
      ++ "}"
  end.

(** [str(v)]. *)
Definition str (v : json) : string :=
  match v with
  | JStr s => s
  | _ => repr v
  end.

(** The coordinate pattern is not exercised by the examples. *)
Definition no_coords (content : string) : option (float * float) := None.

End Ref.

(* ------------------------------------------------------------------ *)
(** ** The system prompt ([create_system_prompt], lines 20-55) *)

(** A text of the source that holds double quotes, written here with
    apostrophes in their place. *)
Fixpoint dq_text (s : string) : string :=
  match s with
  | EmptyString => EmptyString
  | String c r =>
      String (if Ascii.eqb c "'"%char then ascii_of_nat 34 else c) (dq_text r)
  end.

(** What the prompt reads of a tool: [tool.description] (a string or
    [None]) and [tool.inputSchema]. *)
Record tool : Type := mkTool {
  tool_description : json;
  tool_input_schema : json
}.

(** The literal before [tools_str]. *)
Definition prompt_head : string :=
  PyStr.join nl
  ["You are a cheerful weekend helper. You have access to these tools:";
   "";
   ""].

(** The literal after [tools_str]. *)
Definition prompt_tail : string :=
  PyStr.join nl
  ["";
   "";
   "IMPORTANT RULES:";
   "1. You MUST think step-by-step and call ONE tool at a time";
   "2. After each tool result, decide what to do next";
   "3. Output ONLY ONE JSON object per step, NEVER a list";
   "4. Use the EXACT parameter names shown above";
   "5. When you have all needed information, output final answer";
   "";
   "Example for 'Get weather at (40.7128, -74.0060)':";
   dq_text "{'action':'get_weather','args':{'latitude':40.7128,'longitude':-74.006}}";
   "";
   "Example for 'Tell me a joke':";
   dq_text "{'action':'random_joke','args':{}}";
   "";
   "Example final answer:";
   dq_text "{'action':'final','answer':'The weather is sunny at 72Â°F'}";
   "";
   "For complex requests (like weather + books + joke + dog), call tools one by one.";
   "Start with the most relevant tool first."].

Section SystemPrompt.

Variable py_str : json -> string.

(** Line 31. *)
Definition param_line (param_name : string) (param_type param_desc : json) : string :=
  "  - " ++ param_name ++ " (" ++ py_str param_type ++ "): " ++ py_str param_desc.

(** Lines 28-31: the loop over [tool.inputSchema['properties'].items()]. *)
Fixpoint params_info (properties : pydict) : outcome (list string) :=
  match properties with
  | [] => Ok []
  | (param_name, param_details) :: r =>
      d <- as_dict param_details ;;
      rest <- params_info r ;;
      Ok (param_line param_name (dict_get_default d "type" (JStr "any"))
            (dict_get_default d "description" (JStr ""))
          :: rest)
  end.

(** ['properties' in tool.inputSchema]: membership in a dict is a key
    test, in a list an element test, in a string a substring test; other
    values are not containers. *)
Definition has_properties (schema : json) : outcome bool :=
  match schema with
  | JDict d => Ok (dict_has d "properties")
  | JList l => Ok (existsb (fun v => py_eq_str v "properties") l)
  | JStr s => Ok (PyStr.contains "properties" s)
  | _ => Raise TypeError
  end.

(** Lines 26-31 for one tool. *)
Definition tool_params (t : tool) : outcome (list string) :=
  if py_truthy (tool_input_schema t) then
    has <- has_properties (tool_input_schema t) ;;
    if has then
      properties <- py_getitem_key (tool_input_schema t) "properties" ;;
      items <- as_dict properties ;;
      params_info items
    else Ok []
  else Ok [].

(** Lines 33-34. *)
Definition tool_description_block (name : string) (t : tool) (params : list string) : string :=
  let param_list :=
    match params with
    | [] => "  (no parameters)"
    | _ => PyStr.join nl params
    end in
  name ++ ":" ++ nl ++ py_str (tool_description t) ++ nl ++ "Parameters:" ++ nl ++ param_list.

(** Lines 23-34: the loop over [tool_index.items()]. *)
Fixpoint tool_descriptions (tool_index : list (string * tool)) : outcome (list string) :=
  match tool_index with
  | [] => Ok []
  | (name, t) :: r =>
      params <- tool_params t ;;
      rest <- tool_descriptions r ;;
      Ok (tool_description_block name t params :: rest)
  end.

(** [create_system_prompt]. *)
Definition create_system_prompt (tool_index : list (string * tool)) : outcome string :=
  descriptions <- tool_descriptions tool_index ;;
  Ok (prompt_head ++ PyStr.join (nl ++ nl) descriptions ++ prompt_tail).

End SystemPrompt.

(* ------------------------------------------------------------------ *)
(** ** The tools of [server_fun.py] *)

(** [d[k] = v] on a dict: a key already there keeps its place. *)
Fixpoint py_setitem (d : pydict) (k : string) (v : json) : pydict :=
  match d with
  | [] => [(k, v)]
  | (k', v') :: r =>
      if String.eqb k' k then (k, v) :: r else (k', v') :: py_setitem r k v
  end.

(** The items a [for] loop or a comprehension walks over. *)
Definition py_iter (v : json) : outcome (list json) :=
  match v with
  | JList l => Ok l
  | JStr s => Ok (map (fun c => JStr (String c EmptyString)) (list_ascii_of_string s))
  | JDict d => Ok (map (fun kv => JStr (fst kv)) d)
  | _ => Raise TypeError
  end.

(** [x or default]. *)
Definition py_or (x default : json) : json :=
  if py_truthy x then x else default.

Section Server.

Variable json_loads : string -> option json.
(** [requests.get(url, params=params, timeout=20)]. *)
Variable http_get : string -> pydict -> outcome response.
(** [html.unescape]. *)
Variable html_unescape : json -> outcome json.

(** [r = requests.get(...); r.raise_for_status(); r.json()]. *)
Definition fetch_json (url : string) (params : pydict) : outcome json :=
  r <- http_get url params ;;
  _ <- raise_for_status r ;;
  response_json json_loads r.

(** [get_weather], lines 10-21. *)
Definition get_weather (latitude longitude : json) : outcome json :=
  body <- fetch_json "https://api.open-meteo.com/v1/forecast"
            [("latitude", latitude); ("longitude", longitude);
             ("current", JStr "temperature_2m,weather_code,wind_speed_10m");
             ("timezone", JStr "auto")] ;;
  d <- as_dict body ;;
  Ok (dict_get_default d "current" (JDict [])).

(** Lines 33-38: the entry made for one document. *)
Definition book_pick (doc : json) : outcome json :=
  d <- as_dict doc ;;
  author <- py_getitem_0 (py_or (dict_get_default d "author_name" JNull)
                                (JList [JStr "Unknown"])) ;;
  Ok (JDict [("title", dict_get_default d "title" JNull);
             ("author", author);
             ("year", dict_get_default d "first_publish_year" JNull);
             ("work", dict_get_default d "key" JNull)]).

(** Lines 32-38: the loop over [docs]. *)
Fixpoint book_picks (docs : list json) : outcome (list json) :=
  match docs with
  | [] => Ok []
  | doc :: r =>
      pick <- book_pick doc ;;
      rest <- book_picks r ;;
      Ok (pick :: rest)
  end.

(** [book_recs], lines 25-39. *)
Definition book_recs (topic limit : json) : outcome json :=
  body <- fetch_json "https://openlibrary.org/search.json"
            [("q", topic); ("limit", limit)] ;;
  d <- as_dict body ;;
  docs <- py_iter (dict_get_default d "docs" (JList [])) ;;
  picks <- book_picks docs ;;
  Ok (JDict [("topic", topic); ("results", JList picks)]).

(** [random_joke], lines 43-48. *)
Definition random_joke : outcome json :=
  data <- fetch_json "https://v2.jokeapi.dev/joke/Any?type=single&safe-mode" [] ;;
  d <- as_dict data ;;
  Ok (JDict [("joke", dict_get_default d "joke" (JStr "No joke found"))]).

(** [random_dog], lines 52-56. *)
Definition random_dog : outcome json :=
  fetch_json "https://dog.ceo/api/breeds/image/random" [].

(** [[html.unescape(x) for x in items]]. *)
Fixpoint unescape_all (items : list json) : outcome (list json) :=
  match items with
  | [] => Ok []
  | x :: r =>
      y <- html_unescape x ;;
      rest <- unescape_all r ;;
      Ok (y :: rest)
  end.

(** Lines 93-97: the first result with its three fields unescaped.  The
    item assignments need [q] to be a dict, which the subscript before
    each of them has already checked. *)
Definition unescape_question (q : json) : outcome json :=
  question <- py_getitem_key q "question" ;;
  question <- html_unescape question ;;
  d <- as_dict q ;;
  let d := py_setitem d "question" question in
  correct <- py_getitem_key (JDict d) "correct_answer" ;;
  correct <- html_unescape correct ;;
  let d := py_setitem d "correct_answer" correct in
  incorrect <- py_getitem_key (JDict d) "incorrect_answers" ;;
  items <- py_iter incorrect ;;
  incorrect <- unescape_all items ;;
  Ok (JDict (py_setitem d "incorrect_answers" (JList incorrect))).

(** [trivia], lines 87-97. *)
Definition trivia : outcome json :=
  body <- fetch_json "https://opentdb.com/api.php?amount=1&type=multiple" [] ;;
  d <- as_dict body ;;
  let data := dict_get_default d "results" (JList []) in
  if negb (py_truthy data) then Ok (JDict [("error", JStr "no trivia")])
  else
    q <- py_getitem_0 data ;;
    unescape_question q.

End Server.

(* ------------------------------------------------------------------ *)
(** ** Vocabulary of the further properties *)

(** A schema [create_system_prompt] can walk: a dict whose "properties",
    when present, is a dict of dicts. *)
Definition schema_ok (t : tool) : Prop :=
  match tool_input_schema t with
  | JDict d =>
      match dict_get d "properties" with
      | None => True
      | Some (JDict properties) =>
          Forall (fun kv => exists details, snd kv = JDict details) properties
      | Some _ => False
      end
  | _ => False
  end.

Definition is_assistant (t : turn) : Prop := turn_role t = Assistant.

(** Values [len] refuses. *)
Definition unsized (v : json) : bool :=
  match v with
  | JNull | JBool _ | JInt _ | JFloat _ => true
  | _ => false
  end.

Definition ends_with (c : ascii) (s : string) : Prop :=
  exists body : string, s = body ++ String c EmptyString.

(** Providers for the examples: one that answers every request with the
    same body and status, and an [html.unescape] that finds nothing to
    change. *)
Definition provider (status : Z) (body : string) (url : string) (params : pydict)
  : outcome response :=
  Ok (mkResponse status body).

Definition unescape_nothing (v : json) : outcome json := Ok v.

(* ------------------------------------------------------------------ *)
(** ** Vocabulary of the specification *)

(** A well-formed Action: a Final that carries a string answer, or a tool
    call whose arguments are a mapping. *)
Definition well_formed_action (d : pydict) : Prop :=
  (dict_get d "action" = Some (JStr "final")
   /\ exists s, dict_get d "answer" = Some (JStr s))
  \/ (exists name args,
        dict_get d "action" = Some name /\ name <> JStr "final"
        /\ dict_get d "args" = Some (JDict args)).

(** The same with the type of the answer left open. *)
Definition action_shaped (d : pydict) : Prop :=
  (dict_get d "action" = Some (JStr "final")
   /\ exists v, dict_get d "answer" = Some v)
  \/ (exists name args,
        dict_get d "action" = Some name /\ name <> JStr "final"
        /\ dict_get d "args" = Some (JDict args)).

(** The first name of [names] that the lower-cased text contains. *)
Definition first_named (names : list string) (content : string) : option string :=
  find (fun tool_name => PyStr.contains tool_name (PyStr.lower content)) names.

(** A turn the loop may append. *)
Definition appended_role (t : turn) : Prop :=
  turn_role t = User \/ turn_role t = Assistant.

Definition is_system (t : turn) : bool :=
  match turn_role t with System => true | _ => false end.

Definition count_system (h : list turn) : nat := List.length (filter is_system h).

Fixpoint consecutive_system (h : list turn) : bool :=
  match h with
  | a :: ((b :: _) as r) => orb (andb (is_system a) (is_system b)) (consecutive_system r)
  | _ => false
  end.

Definition is_decide (ev : event) : bool :=
  match ev with DecideCall _ => true | _ => false end.

Definition decide_calls (evs : list event) : nat := List.length (filter is_decide evs).

(** A tool call in the trace names a registered tool. *)
Definition event_ok (tool_names : list string) (ev : event) : Prop :=
  match ev with
  | ToolCall name _ => In name tool_names
  | _ => True
  end.

(** The populated entries the combined answer draws on. *)
Definition plan_categories (g : gathered_info) : list json :=
  [g_weather g; g_books g; g_joke g; g_dog g].

(** [st'] comes from [st] by appending user and assistant turns and
    calls, at most [n] of them calls of the decision model and every tool
    call one of a registered tool. *)
Definition grows (tool_names : list string) (n : nat) (st st' : state) : Prop :=
  exists (turns : list turn) (evs : list event),
    history st' = (history st ++ turns)%list
    /\ trace st' = (trace st ++ evs)%list
    /\ Forall appended_role turns
    /\ Forall (event_ok tool_names) evs
    /\ decide_calls evs <= n.

Section Reachable.

Variable json_loads : string -> option json.
Variable py_str : json -> string.
Variable decide : list turn -> outcome pydict.
Variable post_reflect : json -> outcome response.
Variable call_tool : list turn -> string -> json -> tool_outcome.
Variable tool_names : list string.
Variable system_prompt : string.

(** The states of a session: its start (line 259), the arrival of a user
    message (lines 270-279) and a pass through the loop body. *)
Inductive reachable : state -> Prop :=
| reach_start :
    reachable (mkState [mkTurn System (JStr system_prompt)] no_info [])
| reach_message (user : string) (st : state) :
    reachable st ->
    reachable (set_gathered no_info (append_turn User (JStr user) st))
| reach_step (user : string) (step : nat) (st : state) :
    reachable st ->
    reachable
      (fst (loop_body json_loads py_str decide post_reflect call_tool tool_names
              user step st)).

End Reachable.

(** The tool registry and the decision of scenario 4. *)
Definition two_tools : list string := ["get_weather"; "random_joke"].

Definition unknown_tool_decision : pydict :=
  tool_action (JStr "nonexistent_tool") (JDict []).

(** An environment for the examples: no reflection service, tools that
    fail. *)
Definition no_service (answer : json) : outcome response := Raise RequestException.

Definition failing_tool (h : list turn) (name : string) (args : json) : tool_outcome :=
  ToolRaises "timed out".

Definition start_state : state :=
  mkState [mkTurn System (JStr "You are a cheerful weekend helper.")] no_info [].

(** A registry of two tools as the server of the repository declares them. *)
Definition example_tools : list (string * tool) :=
  [("get_weather",
    mkTool (JStr "Current weather at coordinates via Open-Meteo.")
      (JDict [("properties",
               JDict [("latitude", JDict [("title", JStr "Latitude"); ("type", JStr "number")]);
                      ("longitude", JDict [("title", JStr "Longitude"); ("type", JStr "number")])]);
              ("type", JStr "object")]));
   ("random_joke",
    mkTool (JStr "Return a safe, single-line joke.")
      (JDict [("properties", JDict []); ("type", JStr "object")]))].

(** A registry whose only tool lists its parameters instead of mapping
    them. *)
Definition malformed_tools : list (string * tool) :=
  [("odd", mkTool JNull (JDict [("properties", JList [JStr "x"])]))].

(** Replies of the decision service for the examples. *)
Definition hello_reply : response :=
  mkResponse 200
    (dq_text "{'choices':[{'message':{'content':'{\'action\':\'final\',\'answer\':\'Hello!\'}'}}]}").

Definition null_answer_reply : response :=
  mkResponse 200 (dq_text "{'choices':[{'message':{'content':'{\'answer\':null}'}}]}").

Definition list_action_decision : pydict :=
  tool_action (JList [JStr "get_weather"]) (JDict []).

(** What one pass through the loop body does to the history, by the way
    the pass ends: nothing when an exception goes up, one assistant turn
    when the loop goes on, one or two assistant turns when it breaks. *)
Definition pass_effect (before after : list turn) (c : control) : Prop :=
  match c with
  | Uncaught _ => after = before
  | Continue => exists content, after = (before ++ [mkTurn Assistant content])%list
  | Break =>
      exists turns,
        after = (before ++ turns)%list /\ Forall is_assistant turns
        /\ 1 <= List.length turns <= 2
  end.

(** A payload of the book search with two titled results and a third
    entry that is not an object. *)
Definition books_payload : string :=
  dq_text "{'topic':'mystery','results':[{'title':'Gone Girl'},{'title':'The Hound'},7]}".

Definition gathered_before : gathered_info :=
  mkGathered (JStr "21 degrees") JNull (JStr "Knock knock") JNull JNull.

(** Replies of the tool providers for the examples. *)
Definition books_reply : string :=
  dq_text "{'docs':[{'title':'Dune','author_name':['Frank Herbert'],'first_publish_year':1965,'key':'/works/OL1'},{'key':'/works/OL2'}]}".

Definition joke_reply : string := dq_text "{'error':false,'joke':'Knock knock'}".

Definition no_trivia_reply : string := dq_text "{'response_code':1,'results':[]}".

(* ------------------------------------------------------------------ *)
(** ** Basic facts *)

Lemma py_eq_str_true (v : json) (s : string) :
  py_eq_str v s = true -> v = JStr s.
Proof.
  destruct v; simpl; try discriminate.
  intro H. apply String.eqb_eq in H. now subst.
Qed.

Lemma py_eq_str_false (v : json) (s : string) :
  py_eq_str v s = false -> v <> JStr s.
Proof.
  intros H E. subst v. simpl in H. now rewrite String.eqb_refl in H.
Qed.

Lemma dict_has_get (d : pydict) (k : string) :
  dict_has d k = true -> exists v, dict_get d k = Some v.
Proof.
  unfold dict_has. destruct (dict_get d k) as [v|]; [eauto | discriminate].
Qed.

Lemma first_action_item_has_action (l : list json) (item : pydict) :
  first_action_item l = Some item -> dict_has item "action" = true.
Proof.
  induction l as [|x r IH]; simpl; [discriminate|].
  destruct x; auto.
  destruct (dict_has d "action") eqn:E; auto.
  intro H. injection H as <-. exact E.
Qed.

Lemma first_action_item_in (l : list json) (item : pydict) :
  first_action_item l = Some item -> In (JDict item) l.
Proof.
  induction l as [|x r IH]; simpl; [discriminate|].
  destruct x; auto.
  destruct (dict_has d "action"); auto.
  intro H. injection H as <-. now left.
Qed.

(** A text that contains [a ++ b] contains [b]. *)
Lemma prefix_app_drop (a b s : string) :
  String.prefix (a ++ b) s = true ->
  String.prefix b (PyStr.drop (String.length a) s) = true.
Proof.
  revert s. induction a as [|c a IH]; intros s; simpl; [auto|].
  destruct s as [|c' s]; simpl; [discriminate|].
  destruct (ascii_dec c c'); [apply IH | discriminate].
Qed.

Lemma contains_drop (b : string) (n : nat) (s : string) :
  PyStr.contains b (PyStr.drop n s) = true -> PyStr.contains b s = true.
Proof.
  revert s. induction n as [|n IH]; intros s; [simpl; auto|].
  destruct s as [|c s]; [simpl; auto|].
  cbn [PyStr.drop]. intro H. apply IH in H.
  cbn [PyStr.contains]. rewrite H.
  now destruct (String.prefix b (String c s)).
Qed.

Lemma contains_of_prefix (b s : string) :
  String.prefix b s = true -> PyStr.contains b s = true.
Proof.
  intro H. destruct s; cbn [PyStr.contains]; now rewrite H.
Qed.

Lemma contains_suffix_of_needle (a b s : string) :
  PyStr.contains (a ++ b) s = true -> PyStr.contains b s = true.
Proof.
  induction s as [|c s IH].
  - cbn [PyStr.contains]. destruct (String.prefix (a ++ b) "") eqn:E; [|discriminate].
    intros _. apply prefix_app_drop in E.
    apply contains_of_prefix in E. now apply contains_drop in E.
  - cbn [PyStr.contains].
    destruct (String.prefix (a ++ b) (String c s)) eqn:E.
    + intros _. apply prefix_app_drop in E.
      apply contains_of_prefix in E. now apply contains_drop in E.
    + intro H. apply IH in H.
      destruct (String.prefix b (String c s)); auto.
Qed.

(* ------------------------------------------------------------------ *)
(** ** The decoder *)

Lemma final_action_well_formed (s : string) : well_formed_action (final_action (JStr s)).
Proof. left. split; [reflexivity | now exists s]. Qed.

Lemma final_action_shaped (v : json) : action_shaped (final_action v).
Proof. left. split; [reflexivity | now exists v]. Qed.

Lemma well_formed_is_shaped (d : pydict) : well_formed_action d -> action_shaped d.
Proof.
  intros [[Ha [s Hs]] | H]; [left | right; exact H].
  split; [exact Ha | now exists (JStr s)].
Qed.

Lemma tool_action_well_formed (name : json) (args : pydict) :
  name <> JStr "final" -> well_formed_action (tool_action name (JDict args)).
Proof.
  intro H. right. exists name, args.
  split; [reflexivity | split; [exact H | reflexivity]].
Qed.

Section DecoderFacts.

Variable json_loads : string -> option json.
Variable py_str : json -> string.
Variable re_search_coords : string -> option (float * float).

Lemma heuristic_call_well_formed (tool_name content : string) :
  tool_name <> "final" ->
  well_formed_action (heuristic_call re_search_coords tool_name content).
Proof.
  intro Hne. unfold heuristic_call.
  assert (Hdefault :
    well_formed_action
      (if andb (String.eqb tool_name "book_recs")
               (PyStr.contains "mystery" (PyStr.lower content))
       then tool_action (JStr "book_recs")
              (JDict [("topic", JStr "mystery"); ("limit", JInt 2)])
       else tool_action (JStr tool_name) (JDict []))).
  { destruct (andb _ _); apply tool_action_well_formed; congruence. }
  destruct (re_search_coords content) as [[lat lon]|]; [|exact Hdefault].
  destruct (String.eqb tool_name "get_weather"); [|exact Hdefault].
  apply tool_action_well_formed. discriminate.
Qed.

Lemma scan_tool_names_well_formed (names : list string) (content : string) :
  Forall (fun n => n <> "final") names ->
  well_formed_action (scan_tool_names re_search_coords names content).
Proof.
  induction 1 as [|n r Hn _ IH]; simpl.
  - apply final_action_well_formed.
  - destruct (PyStr.contains n (PyStr.lower content)); [|exact IH].
    now apply heuristic_call_well_formed.
Qed.

Lemma decode_heuristic_well_formed (content : string) :
  well_formed_action (decode_heuristic re_search_coords content).
Proof.
  unfold decode_heuristic.
  destruct (looks_like_answer content); [apply final_action_well_formed|].
  apply scan_tool_names_well_formed.
  unfold heuristic_tool_names. repeat constructor; discriminate.
Qed.

Lemma decode_embedded_has_action (content : string) (d : pydict) :
  decode_embedded json_loads content = Some d -> dict_has d "action" = true.
Proof.
  unfold decode_embedded.
  destruct (re_search_json content) as [m|]; [|discriminate].
  destruct (json_loads m) as [[| | | | | l | o]|]; try discriminate.
  - destruct l as [|[| | | | | | o] r]; try discriminate.
    destruct (dict_has o "action") eqn:E; [|discriminate].
    intro H. injection H as <-. exact E.
  - destruct (dict_has o "action") eqn:E; [|discriminate].
    intro H. injection H as <-. exact E.
Qed.

Lemma decode_parsed_dict_shaped (o : pydict) :
  action_shaped (decode_parsed py_str (JDict o))
  /\ dict_has (decode_parsed py_str (JDict o)) "action" = true.
Proof.
  unfold decode_parsed.
  destruct (dict_has o "action").
  - destruct (py_eq_str (dict_get_default o "action" (JStr "")) "final") eqn:E.
    + split; [apply final_action_shaped | reflexivity].
    + apply py_eq_str_false in E. split; [|reflexivity].
      apply well_formed_is_shaped.
      destruct (dict_get_default o "args" (JDict [])); now apply tool_action_well_formed.
  - destruct (dict_get o "answer"); [split; [apply final_action_shaped | reflexivity]|].
    destruct (dict_get o "response"); split;
      solve [apply final_action_shaped | reflexivity].
Qed.

(** The decoder is a total function of the text: the only exception
    raised inside it, [json.JSONDecodeError], is caught at line 151. *)
Lemma decode_eq (raw : string) :
  decode json_loads py_str re_search_coords raw =
    Ok match json_loads (clean raw) with
       | Some parsed => decode_parsed py_str parsed
       | None => decode_fallback json_loads re_search_coords (clean raw)
       end.
Proof.
  unfold decode, try_except, loads, bind.
  now destruct (json_loads (clean raw)).
Qed.

(** What the decoder does with a list (lines 109-119). *)
Lemma decode_parsed_list (l : list json) :
  decode_parsed py_str (JList l) =
    match first_action_item l with
    | Some item => item
    | None =>
        match l with
        | first :: _ => final_action (JStr (py_str first))
        | [] => final_action (JStr empty_list_answer)
        end
    end.
Proof. reflexivity. Qed.


End DecoderFacts.

Section FallbackFacts.

Variable json_loads : string -> option json.
Variable py_str : json -> string.
Variable re_search_coords : string -> option (float * float).

(** A text that parses as a list (lines 109-119): the first element that
    is an object with "action" is returned as it stands. *)
Lemma decode_list (raw : string) (l : list json) :
  json_loads (clean raw) = Some (JList l) ->
  decode json_loads py_str re_search_coords raw =
    Ok match first_action_item l with
       | Some item => item
       | None =>
           match l with
           | first :: _ => final_action (JStr (py_str first))
           | [] => final_action (JStr empty_list_answer)
           end
       end.
Proof.
  intro H. now rewrite decode_eq, H.
Qed.

(** The branch of lines 179-181 cannot be reached: a text that names
    [get_weather] contains "weather" and is taken for an answer. *)
Lemma get_weather_looks_like_answer (content : string) :
  PyStr.contains "get_weather" (PyStr.lower content) = true ->
  looks_like_answer content = true.
Proof.
  intro H. unfold looks_like_answer.
  apply (contains_suffix_of_needle "get_" "weather") in H. now rewrite H.
Qed.

Lemma heuristic_call_other (tool_name content : string) :
  String.eqb tool_name "get_weather" = false ->
  heuristic_call re_search_coords tool_name content =
    if andb (String.eqb tool_name "book_recs")
            (PyStr.contains "mystery" (PyStr.lower content))
    then tool_action (JStr "book_recs")
           (JDict [("topic", JStr "mystery"); ("limit", JInt 2)])
    else tool_action (JStr tool_name) (JDict []).
Proof.
  intro H. unfold heuristic_call. rewrite H.
  now destruct (re_search_coords content) as [[lat lon]|].
Qed.

Lemma scan_tool_names_first_named (names : list string) (content : string) :
  Forall (fun n => String.eqb n "get_weather" = false) names ->
  scan_tool_names re_search_coords names content =
    match first_named names content with
    | Some tool_name =>
        if andb (String.eqb tool_name "book_recs")
                (PyStr.contains "mystery" (PyStr.lower content))
        then tool_action (JStr "book_recs")
               (JDict [("topic", JStr "mystery"); ("limit", JInt 2)])
        else tool_action (JStr tool_name) (JDict [])
    | None => final_action (JStr content)
    end.
Proof.
  unfold first_named.
  induction 1 as [|n r Hn _ IH]; simpl; [reflexivity|].
  destruct (PyStr.contains n (PyStr.lower content)); [|exact IH].
  now apply heuristic_call_other.
Qed.

Lemma scan_tool_names_skip (n : string) (r : list string) (content : string) :
  PyStr.contains n (PyStr.lower content) = false ->
  scan_tool_names re_search_coords (n :: r) content
  = scan_tool_names re_search_coords r content.
Proof. intro H. cbn [scan_tool_names]. now rewrite H. Qed.

Lemma first_named_skip (n : string) (r : list string) (content : string) :
  PyStr.contains n (PyStr.lower content) = false ->
  first_named (n :: r) content = first_named r content.
Proof. intro H. unfold first_named. cbn [find]. now rewrite H. Qed.

(** C4 (amended): in the fallback path (the cleaned text does not parse
    and holds no embedded object with "action"), for a text that does
    not name get_weather: if the lower-cased text contains "weather",
    "temperature" or "answer" the result is a Final whose answer is the
    cleaned text; otherwise, if it contains a name of the decoder's list,
    the result is a tool call of the first such name, with the arguments
    topic "mystery" and limit 2 for book_recs when the text contains
    "mystery" and no arguments otherwise; otherwise it is a Final whose
    answer is the cleaned text. *)
Theorem fallback_heuristic :
  forall raw : string,
    json_loads (clean raw) = None ->
    decode_embedded json_loads (clean raw) = None ->
    PyStr.contains "get_weather" (PyStr.lower (clean raw)) = false ->
    decode json_loads py_str re_search_coords raw =
      Ok (if looks_like_answer (clean raw)
          then final_action (JStr (clean raw))
          else
            match first_named heuristic_tool_names (clean raw) with
            | Some tool_name =>
                if andb (String.eqb tool_name "book_recs")
                        (PyStr.contains "mystery" (PyStr.lower (clean raw)))
                then tool_action (JStr "book_recs")
                       (JDict [("topic", JStr "mystery"); ("limit", JInt 2)])
                else tool_action (JStr tool_name) (JDict [])
            | None => final_action (JStr (clean raw))
            end).
Proof.
  intros raw Hparse Hemb Hgw.
  rewrite decode_eq, Hparse. f_equal. unfold decode_fallback. rewrite Hemb. unfold decode_heuristic.
  destruct (looks_like_answer (clean raw)); [reflexivity|].
  unfold heuristic_tool_names.
  rewrite scan_tool_names_skip by exact Hgw.
  rewrite first_named_skip by exact Hgw.
  apply scan_tool_names_first_named. repeat constructor.
Qed.

End FallbackFacts.

(** The amended C4 at the text [please call random_joke]. *)
Lemma fallback_heuristic_witness :
  Ref.loads (clean "please call random_joke") = None
  /\ decode Ref.loads Ref.str Ref.no_coords "please call random_joke"
     = Ok (tool_action (JStr "random_joke") (JDict [])).
Proof.
  split; [reflexivity|].
  exact (fallback_heuristic Ref.loads Ref.str Ref.no_coords "please call random_joke"
           eq_refl eq_refl eq_refl).
Defined.

(** C4 as stated fails: the text below does not parse, holds no embedded
    object and names the tool random_joke, yet the decoder returns it as a
    Final, because it contains the word "answer". *)
Lemma tool_name_beside_answer_word :
  Ref.loads (clean "the answer: call random_joke") = None
  /\ decode_embedded Ref.loads (clean "the answer: call random_joke") = None
  /\ first_named heuristic_tool_names (clean "the answer: call random_joke")
     = Some "random_joke"
  /\ decode Ref.loads Ref.str Ref.no_coords "the answer: call random_joke"
     = Ok (final_action (JStr "the answer: call random_joke")).
Proof. repeat split; vm_compute; reflexivity. Qed.


(** C3 at its failing inputs: an element of a list is returned as it
    stands, where the same object at top level is normalised. *)
Lemma list_element_not_normalised :
  decode Ref.loads Ref.str Ref.no_coords (Ref.js "[{'action':'final','answer':''}]")
  = Ok [("action", JStr "final"); ("answer", JStr "")]
  /\ decode Ref.loads Ref.str Ref.no_coords (Ref.js "{'action':'final','answer':''}")
     = Ok (final_action (JStr empty_answer_fallback))
  /\ decode Ref.loads Ref.str Ref.no_coords (Ref.js "[{'action':'get_weather','args':'x'}]")
     = Ok [("action", JStr "get_weather"); ("args", JStr "x")]
  /\ decode Ref.loads Ref.str Ref.no_coords (Ref.js "{'action':'get_weather','args':'x'}")
     = Ok (tool_action (JStr "get_weather") (JDict [])).
Proof. repeat split; vm_compute; reflexivity. Qed.

(** Scenarios 1 and 2 of the specification. *)
Example scenario_tool_call :
  decode Ref.loads Ref.str Ref.no_coords (Ref.js "{'action':'random_joke','args':{}}")
  = Ok (tool_action (JStr "random_joke") (JDict [])).
Proof. vm_compute. reflexivity. Qed.

Example scenario_answer_without_action :
  decode Ref.loads Ref.str Ref.no_coords (Ref.js "{'answer':'hello'}")
  = Ok (final_action (JStr "hello")).
Proof. vm_compute. reflexivity. Qed.

(* ------------------------------------------------------------------ *)
(** ** The decision call *)

Section LlmJsonFacts.

Variable json_loads : string -> option json.
Variable py_str : json -> string.
Variable re_search_coords : string -> option (float * float).
Variable post_chat : list turn -> outcome response.

(** A status other than 200 gives the first apology (lines 93-96). *)
Lemma llm_json_bad_status (messages : list turn) (r : response) :
  post_chat messages = Ok r -> status_code r <> 200%Z ->
  llm_json json_loads py_str re_search_coords post_chat messages
  = Ok (final_action (JStr status_apology)).
Proof.
  intros Hpost Hstatus. unfold llm_json. rewrite Hpost. simpl.
  apply Z.eqb_neq in Hstatus. now rewrite Hstatus.
Qed.

(** A [RequestException] of the call gives the second one (lines 190-193). *)
Lemma llm_json_connection_error (messages : list turn) :
  post_chat messages = Raise RequestException ->
  llm_json json_loads py_str re_search_coords post_chat messages
  = Ok (final_action (JStr connection_apology)).
Proof. intro Hpost. unfold llm_json. now rewrite Hpost. Qed.

(** So does a body that is not JSON. *)
Lemma llm_json_body_not_json (messages : list turn) (r : response) :
  post_chat messages = Ok r -> status_code r = 200%Z -> json_loads (text r) = None ->
  llm_json json_loads py_str re_search_coords post_chat messages
  = Ok (final_action (JStr connection_apology)).
Proof.
  intros Hpost Hstatus Hbody. unfold llm_json, response_json.
  rewrite Hpost. simpl. rewrite Hstatus, Hbody. reflexivity.
Qed.

(** A body of the expected shape is handed to the decoder. *)
Lemma llm_json_decodes (messages : list turn) (r : response) (result : json) (raw : string) :
  post_chat messages = Ok r -> status_code r = 200%Z ->
  json_loads (text r) = Some result ->
  message_content result = Ok (JStr raw) ->
  llm_json json_loads py_str re_search_coords post_chat messages
  = decode json_loads py_str re_search_coords raw.
Proof.
  intros Hpost Hstatus Hbody Hcontent. unfold llm_json, response_json.
  rewrite Hpost. simpl. rewrite Hstatus, Hbody. simpl. rewrite Hcontent. simpl.
  now rewrite decode_eq.
Qed.

End LlmJsonFacts.

(** C5 at its failing inputs: the service answers 200 with a JSON body
    that lacks the expected shape, and the exception leaves [llm_json]. *)
Lemma llm_json_escapes_on_malformed_body :
  llm_json Ref.loads Ref.str Ref.no_coords
    (fun _ => Ok (mkResponse 200 "{}")) [mkTurn User (JStr "hi")]
  = Raise KeyError
  /\ llm_json Ref.loads Ref.str Ref.no_coords
       (fun _ => Ok (mkResponse 200 (Ref.js "{'choices':[]}"))) [mkTurn User (JStr "hi")]
     = Raise IndexError
  /\ llm_json Ref.loads Ref.str Ref.no_coords
       (fun _ => Ok (mkResponse 200 (Ref.js "{'choices':[{'message':{'content':null}}]}")))
       [mkTurn User (JStr "hi")]
     = Raise AttributeError.
Proof. repeat split; vm_compute; reflexivity. Qed.

(* ------------------------------------------------------------------ *)
(** ** Reflection *)

Section ReflectionFacts.

Variable json_loads : string -> option json.
Variable post_reflect : json -> outcome response.

(** [reflect_with_groq] never raises on a string: every failure of the
    request is turned into the sentinel. *)
Lemma reflect_with_groq_result (s : string) :
  reflect_with_groq json_loads post_reflect (JStr s) =
    Ok (if Nat.ltb (String.length s) 200 then sentinel
        else match reflect_request json_loads post_reflect (JStr s) with
             | Ok r => r
             | Raise _ => sentinel
             end).
Proof.
  unfold reflect_with_groq. simpl.
  destruct (Nat.ltb (String.length s) 200); [reflexivity|].
  now destruct (reflect_request json_loads post_reflect (JStr s)).
Qed.

(** Between 151 and 199 characters the function is called and answers
    the sentinel without a request. *)
Lemma reflect_with_groq_short (s : string) :
  String.length s < 200 ->
  reflect_with_groq json_loads post_reflect (JStr s) = Ok sentinel.
Proof.
  intro H. rewrite reflect_with_groq_result.
  apply Nat.ltb_lt in H. now rewrite H.
Qed.


End ReflectionFacts.

(* ------------------------------------------------------------------ *)
(** ** The combined answer *)

Section CombineFacts.

Variable py_str : json -> string.

(** C9 (amended): the combined answer replaces the decoded one exactly
    when one of the weather, books, joke and dog entries is populated and
    the user's message contains "weather", "book" and "joke" in any case;
    it is then the plan title followed by the labelled populated entries
    among those four.  Otherwise the decoded answer goes on to the
    reflection step as it is. *)
Theorem combined_answer_rule :
  forall (user : string) (g : gathered_info) (answer : json),
    combine_answer py_str user g answer =
      if andb (existsb py_truthy (plan_categories g)) (wants_combined user)
      then JStr (plan_title ++ PyStr.join (nl ++ nl) (final_answer_parts py_str g))
      else answer.
Proof.
  intros user [w b j d t] answer.
  unfold combine_answer, final_answer_parts, labelled, plan_categories,
    gathered_values, gathered_items.
  cbn [map snd existsb g_weather g_books g_joke g_dog g_trivia].
  destruct (py_truthy w), (py_truthy b), (py_truthy j), (py_truthy d), (py_truthy t),
    (wants_combined user); reflexivity.
Qed.

End CombineFacts.

(** C9 as stated fails: with trivia alone gathered and the three words in
    the message, the conditions of the claim hold and the answer is still
    the decoded one; no part is built from trivia. *)
Lemma trivia_alone_is_not_merged :
  existsb py_truthy (gathered_values (mkGathered JNull JNull JNull JNull (JStr "Q?"))) = true
  /\ wants_combined "Weather, a book and a joke please" = true
  /\ final_answer_parts Ref.str (mkGathered JNull JNull JNull JNull (JStr "Q?")) = []
  /\ combine_answer Ref.str "Weather, a book and a joke please"
       (mkGathered JNull JNull JNull JNull (JStr "Q?")) (JStr "Done.")
     = JStr "Done.".
Proof. repeat split; vm_compute; reflexivity. Qed.

(* ------------------------------------------------------------------ *)
(** ** Growth of the conversation state *)

Section GrowsFacts.

Variable tool_names : list string.

Lemma grows_refl (n : nat) (st : state) : grows tool_names n st st.
Proof.
  exists [], []. rewrite !app_nil_r.
  repeat split; try constructor. apply Nat.le_0_l.
Qed.

Lemma grows_append_turn (n : nat) (st0 st : state) (r : role) (c : json) :
  r = User \/ r = Assistant ->
  grows tool_names n st0 st -> grows tool_names n st0 (append_turn r c st).
Proof.
  intros Hr (turns & evs & Hh & Ht & Hturns & Hevs & Hn).
  exists (turns ++ [mkTurn r c])%list, evs. cbn [append_turn history trace].
  rewrite Hh, app_assoc. repeat split; auto.
  apply Forall_app. split; [exact Hturns|]. constructor; [exact Hr | constructor].
Qed.

Lemma grows_set_gathered (n : nat) (st0 st : state) (g : gathered_info) :
  grows tool_names n st0 st -> grows tool_names n st0 (set_gathered g st).
Proof. intros (turns & evs & H). now exists turns, evs. Qed.

Lemma decide_calls_app (evs evs' : list event) :
  decide_calls (evs ++ evs') = decide_calls evs + decide_calls evs'.
Proof. unfold decide_calls. now rewrite filter_app, length_app. Qed.

Lemma grows_log (n : nat) (st0 st : state) (ev : event) :
  event_ok tool_names ev ->
  grows tool_names n st0 st ->
  grows tool_names (n + (if is_decide ev then 1 else 0)) st0 (log ev st).
Proof.
  intros Hev (turns & evs & Hh & Ht & Hturns & Hevs & Hn).
  exists turns, (evs ++ [ev])%list. cbn [log history trace].
  rewrite Ht, app_assoc. repeat split; auto.
  - apply Forall_app. split; [exact Hevs|]. constructor; [exact Hev | constructor].
  - rewrite decide_calls_app. unfold decide_calls at 2. cbn [filter].
    destruct (is_decide ev); cbn [List.length]; lia.
Qed.

Lemma grows_log_other (n : nat) (st0 st : state) (ev : event) :
  event_ok tool_names ev -> is_decide ev = false ->
  grows tool_names n st0 st -> grows tool_names n st0 (log ev st).
Proof.
  intros Hev Hd H. pose proof (grows_log n st0 st ev Hev H) as G.
  rewrite Hd, Nat.add_0_r in G. exact G.
Qed.

Lemma grows_log_decide (n : nat) (st0 st : state) (h : list turn) :
  grows tool_names n st0 st -> grows tool_names (S n) st0 (log (DecideCall h) st).
Proof.
  intro H. pose proof (grows_log n st0 st (DecideCall h) I H) as G.
  cbn [is_decide] in G. now rewrite Nat.add_1_r in G.
Qed.

Lemma grows_weaken (n m : nat) (st0 st : state) :
  n <= m -> grows tool_names n st0 st -> grows tool_names m st0 st.
Proof.
  intros Hle (turns & evs & Hh & Ht & Hturns & Hevs & Hn).
  exists turns, evs. repeat split; auto. lia.
Qed.


End GrowsFacts.

(* ------------------------------------------------------------------ *)
(** ** The loop *)

Section LoopFacts.

Variable json_loads : string -> option json.
Variable py_str : json -> string.
Variable decide : list turn -> outcome pydict.
Variable post_reflect : json -> outcome response.
Variable call_tool : list turn -> string -> json -> tool_outcome.
Variable tool_names : list string.

Lemma registered_in (tname : json) (name : string) :
  registered tool_names tname = Some name -> tname = JStr name /\ In name tool_names.
Proof.
  destruct tname; simpl; try discriminate.
  destruct (existsb (String.eqb s) tool_names) eqn:E; [|discriminate].
  intro H. injection H as <-. split; [reflexivity|].
  apply existsb_exists in E. destruct E as [x [Hin Hx]].
  apply String.eqb_eq in Hx. now subst x.
Qed.

Lemma review_and_finish_grows (n : nat) (st0 st : state) (answer : json) :
  grows tool_names n st0 st ->
  grows tool_names n st0 (fst (review_and_finish json_loads post_reflect answer st)).
Proof.
  intro H. unfold review_and_finish.
  destruct (py_len answer) as [len|e]; [|exact H].
  destruct (Nat.ltb 150 len).
  - destruct (reflect_with_groq json_loads post_reflect answer); cbn [fst].
    + apply grows_append_turn; [now right|]. now apply grows_log_other.
    + now apply grows_log_other.
  - cbn [fst]. apply grows_append_turn; [now right | exact H].
Qed.

Lemma invoke_tool_grows (n : nat) (st0 st : state) (name : string) (args : json) :
  In name tool_names ->
  grows tool_names n st0 st ->
  grows tool_names n st0 (invoke_tool json_loads py_str call_tool name args st).
Proof.
  intros Hin H. unfold invoke_tool.
  assert (G : grows tool_names n st0 (log (ToolCall name args) st))
    by now apply grows_log_other.
  destruct (call_tool _ name args).
  - apply grows_append_turn; [now right|]. now apply grows_set_gathered.
  - apply grows_append_turn; [now right | exact G].
Qed.

Lemma budget_check_grows (n step : nat) (st0 st : state) :
  grows tool_names n st0 st ->
  grows tool_names n st0 (fst (budget_check py_str step st)).
Proof.
  intro H. unfold budget_check.
  destruct (Nat.leb 11 step); cbn [fst]; [|exact H].
  apply grows_append_turn; [now right | exact H].
Qed.

Lemma dispatch_grows (n step : nat) (st0 st : state) (decision : pydict) :
  grows tool_names n st0 st ->
  grows tool_names n st0
    (fst (dispatch json_loads py_str call_tool tool_names step decision st)).
Proof.
  intro H. unfold dispatch.
  destruct (negb (py_truthy _)); cbn [fst].
  { apply grows_append_turn; [now right | exact H]. }
  destruct (negb (py_hashable _)); cbn [fst]; [exact H|].
  destruct (registered tool_names _) as [name|] eqn:E; cbn [fst].
  - apply budget_check_grows. apply invoke_tool_grows; [|exact H].
    now apply registered_in in E.
  - apply grows_append_turn; [now right | exact H].
Qed.

Lemma loop_body_grows (n step : nat) (st0 st : state) (user : string) :
  grows tool_names n st0 st ->
  grows tool_names (S n) st0
    (fst (loop_body json_loads py_str decide post_reflect call_tool tool_names
            user step st)).
Proof.
  intro H. unfold loop_body.
  pose proof (grows_log_decide tool_names n st0 st (history st) H) as G.
  cbn [log history]. fold (log (DecideCall (history st)) st).
  destruct (decide (history st)) as [decision|e]; [|exact G].
  destruct (is_final decision).
  - unfold finish. now apply review_and_finish_grows.
  - now apply dispatch_grows.
Qed.

Lemma for_steps_grows (user : string) (steps : list nat) :
  forall (n : nat) (st0 st : state),
    grows tool_names n st0 st ->
    grows tool_names (n + List.length steps) st0
      (fst (for_steps json_loads py_str decide post_reflect call_tool tool_names
              user steps st)).
Proof.
  induction steps as [|step r IH]; intros n st0 st H; cbn [for_steps List.length].
  - rewrite Nat.add_0_r. exact H.
  - pose proof (loop_body_grows n step st0 st user H) as G.
    destruct (loop_body _ _ _ _ _ _ user step st) as [st' c]. cbn [fst] in G.
    destruct c; cbn [fst].
    + replace (n + S (List.length r)) with (S n + List.length r) by lia.
      now apply IH.
    + apply grows_weaken with (S n); [lia | exact G].
    + apply grows_weaken with (S n); [lia | exact G].
Qed.

(** One user message: the history and the trace only grow, by user and
    assistant turns, by calls of registered tools and by at most twelve
    calls of the decision model. *)
Lemma run_message_grows (user : string) (st : state) :
  grows tool_names max_steps st
    (fst (run_message json_loads py_str decide post_reflect call_tool tool_names
            user st)).
Proof.
  unfold run_message.
  apply (for_steps_grows user (seq 0 max_steps) 0 st).
  apply grows_set_gathered. apply grows_append_turn; [now left|]. apply grows_refl.
Qed.

(** The true part of C2: at most twelve decisions are requested for one
    message. *)
Lemma run_message_at_most_12_decisions (user : string) (st : state) :
  exists evs : list event,
    trace (fst (run_message json_loads py_str decide post_reflect call_tool
                  tool_names user st))
    = (trace st ++ evs)%list
    /\ decide_calls evs <= 12.
Proof.
  destruct (run_message_grows user st) as (turns & evs & _ & Ht & _ & _ & Hn).
  now exists evs.
Qed.

(** When the twelfth pass gets as far as the call of a registered tool,
    the forced answer is appended and the loop ends. *)
Lemma budget_check_last (st : state) :
  budget_check py_str 11 st
  = (append_turn Assistant (JStr (budget_answer py_str (gathered st))) st, Break).
Proof. reflexivity. Qed.


(** C10: when the call of a tool raises, the dispatch of lines 335-396
    leaves the gathered information as it was and appends exactly one
    assistant turn, whose content is "Error with", the tool's name, a
    colon and the text of the exception. *)
Theorem tool_failure_isolated :
  forall (tname : string) (args : json) (st : state) (details : string),
    call_tool (history st) tname args = ToolRaises details ->
    gathered (invoke_tool json_loads py_str call_tool tname args st) = gathered st
    /\ history (invoke_tool json_loads py_str call_tool tname args st)
       = (history st
          ++ [mkTurn Assistant (JStr ("Error with " ++ tname ++ ": " ++ details))])%list.
Proof.
  intros tname args st details Hcall.
  unfold invoke_tool. cbn [log history]. now rewrite Hcall.
Qed.

End LoopFacts.

(* ------------------------------------------------------------------ *)
(** ** The session *)

Lemma no_system_among_appended (turns : list turn) :
  Forall appended_role turns -> filter is_system turns = [].
Proof.
  induction 1 as [|t r Ht _ IH]; [reflexivity|].
  cbn [filter]. unfold is_system at 1.
  destruct Ht as [Ht | Ht]; rewrite Ht; exact IH.
Qed.

Lemma consecutive_system_cons (a b : turn) (r : list turn) :
  consecutive_system (a :: b :: r)
  = orb (andb (is_system a) (is_system b)) (consecutive_system (b :: r)).
Proof. reflexivity. Qed.

Lemma no_consecutive_system_after (a : turn) (turns : list turn) :
  Forall appended_role turns -> consecutive_system (a :: turns) = false.
Proof.
  intro H. revert a. induction H as [|t r Ht _ IH]; intro a; [reflexivity|].
  rewrite consecutive_system_cons, IH.
  assert (E : is_system t = false) by (unfold is_system; destruct Ht as [Ht | Ht]; now rewrite Ht).
  rewrite E. now rewrite Bool.andb_false_r.
Qed.

Section SessionFacts.

Variable json_loads : string -> option json.
Variable py_str : json -> string.
Variable decide : list turn -> outcome pydict.
Variable post_reflect : json -> outcome response.
Variable call_tool : list turn -> string -> json -> tool_outcome.
Variable tool_names : list string.
Variable system_prompt : string.

Lemma loop_body_appends (user : string) (step : nat) (st : state) :
  exists more : list turn,
    history (fst (loop_body json_loads py_str decide post_reflect call_tool
                    tool_names user step st))
    = (history st ++ more)%list
    /\ Forall appended_role more.
Proof.
  destruct (loop_body_grows json_loads py_str decide post_reflect call_tool tool_names
              0 step st st user (grows_refl tool_names 0 st))
    as (turns & evs & Hh & _ & Hturns & _).
  now exists turns.
Qed.

Lemma reachable_history (st : state) :
  reachable json_loads py_str decide post_reflect call_tool tool_names system_prompt st ->
  exists turns : list turn,
    history st = mkTurn System (JStr system_prompt) :: turns
    /\ Forall appended_role turns.
Proof.
  induction 1 as [| user st _ [turns [Hh Ht]] | user step st _ [turns [Hh Ht]]].
  - exists []. split; [reflexivity | constructor].
  - exists (turns ++ [mkTurn User (JStr user)])%list.
    cbn [set_gathered append_turn history]. rewrite Hh. split; [reflexivity|].
    apply Forall_app. split; [exact Ht|]. constructor; [now left | constructor].
  - destruct (loop_body_appends user step st) as [more [Hm Hmore]].
    exists (turns ++ more)%list. rewrite Hm, Hh. split; [reflexivity|].
    apply Forall_app. now split.
Qed.

Lemma for_steps_reachable (user : string) (steps : list nat) :
  forall st : state,
    reachable json_loads py_str decide post_reflect call_tool tool_names system_prompt st ->
    reachable json_loads py_str decide post_reflect call_tool tool_names system_prompt
      (fst (for_steps json_loads py_str decide post_reflect call_tool tool_names
              user steps st)).
Proof.
  induction steps as [|step r IH]; intros st H; cbn [for_steps]; [exact H|].
  pose proof (reach_step json_loads py_str decide post_reflect call_tool tool_names
                system_prompt user step st H) as G.
  destruct (loop_body _ _ _ _ _ _ user step st) as [st' c]. cbn [fst] in G.
  destruct c; cbn [fst]; [now apply IH | exact G | exact G].
Qed.

(** Every state a session ends in is one of the states [reachable]
    describes. *)
Lemma session_reachable (lines : list string) :
  reachable json_loads py_str decide post_reflect call_tool tool_names system_prompt
    (fst (session json_loads py_str decide post_reflect call_tool tool_names
            system_prompt lines)).
Proof.
  unfold session.
  generalize (reach_start json_loads py_str decide post_reflect call_tool tool_names
                system_prompt).
  generalize (mkState [mkTurn System (JStr system_prompt)] no_info []).
  induction lines as [|line r IH]; intros st H; cbn [session_loop fst]; [exact H|].
  destruct (is_exit (PyStr.strip line)); [exact H|].
  pose proof (for_steps_reachable (PyStr.strip line) (seq 0 max_steps) _
                (reach_message json_loads py_str decide post_reflect call_tool
                   tool_names system_prompt (PyStr.strip line) st H)) as G.
  fold (run_message json_loads py_str decide post_reflect call_tool tool_names
          (PyStr.strip line) st) in G.
  destruct (run_message _ _ _ _ _ _ (PyStr.strip line) st) as [st' e]. cbn [fst] in G.
  destruct e; [now apply IH | exact G].
Qed.

(** C8: in every state of a session the history is the initial system
    turn followed by user and assistant turns only, so it holds exactly
    one system turn and no two system turns in a row; and a pass through
    the loop keeps the history it found and appends to it user or
    assistant turns only. *)
Theorem one_system_turn :
  forall st : state,
    reachable json_loads py_str decide post_reflect call_tool tool_names system_prompt st ->
    (exists turns : list turn,
       history st = mkTurn System (JStr system_prompt) :: turns
       /\ Forall appended_role turns)
    /\ count_system (history st) = 1
    /\ consecutive_system (history st) = false
    /\ (forall (user : string) (step : nat),
          exists more : list turn,
            history (fst (loop_body json_loads py_str decide post_reflect call_tool
                            tool_names user step st))
            = (history st ++ more)%list
            /\ Forall appended_role more).
Proof.
  intros st H. destruct (reachable_history st H) as [turns [Hh Ht]].
  split; [now exists turns|]. rewrite Hh. repeat split.
  - unfold count_system. cbn [filter is_system turn_role].
    now rewrite no_system_among_appended.
  - now apply no_consecutive_system_after.
  - intros user step. rewrite <- Hh. apply loop_body_appends.
Qed.

End SessionFacts.

(* ------------------------------------------------------------------ *)
(** ** The loop on concrete conversations *)


(** A registered tool whose call times out. *)
Lemma tool_failure_isolated_witness :
  gathered (invoke_tool Ref.loads Ref.str failing_tool "random_joke" (JDict []) start_state)
  = gathered start_state
  /\ history (invoke_tool Ref.loads Ref.str failing_tool "random_joke" (JDict []) start_state)
     = (history start_state
        ++ [mkTurn Assistant (JStr "Error with random_joke: timed out")])%list.
Proof.
  exact (tool_failure_isolated Ref.loads Ref.str failing_tool "random_joke" (JDict [])
           start_state "timed out" eq_refl).
Defined.

(** The state after a user message and one pass of the loop. *)
Lemma one_system_turn_witness :
  count_system
    (history
       (fst (loop_body Ref.loads Ref.str (fun _ => Ok unknown_tool_decision) no_service
               failing_tool two_tools "hi" 0
               (set_gathered no_info (append_turn User (JStr "hi") start_state)))))
  = 1.
Proof.
  exact (proj1 (proj2
    (one_system_turn Ref.loads Ref.str (fun _ => Ok unknown_tool_decision) no_service
       failing_tool two_tools "You are a cheerful weekend helper." _
       (reach_step _ _ _ _ _ _ _ "hi" 0 _
          (reach_message _ _ _ _ _ _ _ "hi" _ (reach_start _ _ _ _ _ _ _)))))).
Defined.

(** C2 at its failing input: twelve decisions in a row name a tool that
    is not registered.  The budget is spent, the loop ends, and the last
    turn is the twelfth rejection: no forced answer is appended. *)
Lemma budget_spent_without_forced_answer :
  let run := run_message Ref.loads Ref.str (fun _ => Ok unknown_tool_decision) no_service
               failing_tool two_tools "plan my day" start_state in
  snd run = Completed
  /\ decide_calls (trace (fst run)) = 12
  /\ history (fst run)
     = (history start_state
        ++ mkTurn User (JStr "plan my day")
        :: repeat
             (mkTurn Assistant
                (JStr "Tool 'nonexistent_tool' not found. Available: ['get_weather', 'random_joke']"))
             12)%list
  /\ budget_answer Ref.str (gathered (fst run)) = budget_apology.
Proof. repeat split; vm_compute; reflexivity. Qed.

(** Scenario 5 with a registered tool that fails each time: here the
    forced answer does follow the twelfth error. *)
Example budget_spent_with_forced_answer :
  let run := run_message Ref.loads Ref.str
               (fun _ => Ok (tool_action (JStr "random_joke") (JDict []))) no_service
               failing_tool two_tools "plan my day" start_state in
  snd run = Completed
  /\ decide_calls (trace (fst run)) = 12
  /\ history (fst run)
     = (history start_state
        ++ mkTurn User (JStr "plan my day")
        :: repeat (mkTurn Assistant (JStr "Error with random_joke: timed out")) 12
        ++ [mkTurn Assistant (JStr budget_apology)])%list.
Proof. repeat split; vm_compute; reflexivity. Qed.

(** A whole session through [llm_json]: one message answered at once. *)
Example session_with_final_answer :
  agent_session Ref.loads Ref.str Ref.no_coords
    (fun _ => Ok (mkResponse 200
       (Ref.js "{'choices':[{'message':{'content':'{\'action\':\'final\',\'answer\':\'Hello!\'}'}}]}")))
    no_service failing_tool two_tools "prompt" ["hi"; "exit"]
  = (mkState [mkTurn System (JStr "prompt"); mkTurn User (JStr "hi");
              mkTurn Assistant (JStr "Hello!")]
       no_info
       [DecideCall [mkTurn System (JStr "prompt"); mkTurn User (JStr "hi")]],
     UserLeft).
Proof. vm_compute. reflexivity. Qed.

(** The same session when the service answers 200 with the body [{}]:
    the exception of [llm_json] ends the session. *)
Example session_with_malformed_body :
  snd (agent_session Ref.loads Ref.str Ref.no_coords (fun _ => Ok (mkResponse 200 "{}"))
         no_service failing_tool two_tools "prompt" ["hi"; "exit"])
  = SessionCrashed KeyError.
Proof. vm_compute. reflexivity. Qed.

(* ------------------------------------------------------------------ *)
(** ** Texts *)

Lemma string_app_assoc (a b c : string) : (a ++ b) ++ c = a ++ (b ++ c).
Proof. induction a as [|x a IH]; simpl; [reflexivity | now rewrite IH]. Qed.

Lemma string_app_nil_r (a : string) : a ++ "" = a.
Proof. induction a as [|x a IH]; simpl; [reflexivity | now rewrite IH]. Qed.


Lemma prefix_app_self (x b : string) : String.prefix x (x ++ b) = true.
Proof.
  induction x as [|c x IH]; simpl; [now destruct b|].
  destruct (ascii_dec c c); [exact IH | congruence].
Qed.

Lemma prefix_split (x s : string) :
  String.prefix x s = true -> exists b : string, s = x ++ b.
Proof.
  revert s. induction x as [|c x IH]; intros s H.
  - now exists s.
  - destruct s as [|c' s]; simpl in H; [discriminate|].
    destruct (ascii_dec c c') as [<-|]; [|discriminate].
    destruct (IH s H) as [b ->]. now exists b.
Qed.

(** [x in s] holds exactly when [s] is some text, [x], some text. *)
Lemma contains_intro (x a b : string) : PyStr.contains x (a ++ x ++ b) = true.
Proof.
  induction a as [|c a IH].
  - cbn [append]. apply contains_of_prefix. apply prefix_app_self.
  - change ((String c a) ++ x ++ b) with (String c (a ++ x ++ b)).
    cbn [PyStr.contains]. rewrite IH. now destruct (String.prefix x _).
Qed.

Lemma contains_split (x s : string) :
  PyStr.contains x s = true -> exists a b : string, s = a ++ x ++ b.
Proof.
  induction s as [|c s IH]; cbn [PyStr.contains].
  - destruct (String.prefix x "") eqn:E; [|discriminate].
    intros _. destruct (prefix_split _ _ E) as [b ->]. now exists "", b.
  - destruct (String.prefix x (String c s)) eqn:E.
    + intros _. destruct (prefix_split _ _ E) as [b ->]. now exists "", b.
    + intro H. destruct (IH H) as (a & b & ->). now exists (String c a), b.
Qed.

Lemma contains_app_l (x s t : string) :
  PyStr.contains x s = true -> PyStr.contains x (s ++ t) = true.
Proof.
  intro H. destruct (contains_split _ _ H) as (a & b & ->).
  rewrite !string_app_assoc. apply contains_intro.
Qed.

Lemma contains_app_r (x s t : string) :
  PyStr.contains x t = true -> PyStr.contains x (s ++ t) = true.
Proof.
  intro H. destruct (contains_split _ _ H) as (a & b & ->).
  rewrite <- string_app_assoc. apply contains_intro.
Qed.

Lemma contains_join (x sep : string) (parts : list string) (p : string) :
  In p parts -> PyStr.contains x p = true ->
  PyStr.contains x (PyStr.join sep parts) = true.
Proof.
  intros Hin Hx. induction parts as [|q r IH]; [contradiction|].
  destruct Hin as [-> | Hin].
  - destruct r; cbn [PyStr.join]; [exact Hx | now apply contains_app_l].
  - destruct r as [|q' r']; [contradiction|].
    change (PyStr.join sep (q :: q' :: r')) with (q ++ sep ++ PyStr.join sep (q' :: r')).
    apply contains_app_r, contains_app_r. now apply IH.
Qed.

(* ------------------------------------------------------------------ *)
(** ** The system prompt *)

Section SystemPromptFacts.

Variable py_str : json -> string.

Lemma params_info_ok (properties : pydict) :
  Forall (fun kv => exists details, snd kv = JDict details) properties ->
  exists lines, params_info py_str properties = Ok lines.
Proof.
  induction 1 as [|[param_name param_details] r [details Hd] _ [lines IH]]; simpl.
  - now exists [].
  - simpl in Hd. subst param_details. simpl. rewrite IH. simpl. eauto.
Qed.

Lemma tool_params_ok (t : tool) :
  schema_ok t -> exists lines, tool_params py_str t = Ok lines.
Proof.
  unfold schema_ok, tool_params. destruct (tool_input_schema t) as [| | | | | |d]; try contradiction.
  intro H. destruct (py_truthy (JDict d)); [|now exists []].
  cbn [has_properties bind]. unfold dict_has. cbn [py_getitem_key].
  destruct (dict_get d "properties") as [[| | | | | |properties]|]; try contradiction.
  - cbn [bind as_dict]. now apply params_info_ok.
  - now exists [].
Qed.

Lemma tool_descriptions_ok (tool_index : list (string * tool)) :
  Forall (fun entry => schema_ok (snd entry)) tool_index ->
  exists descriptions, tool_descriptions py_str tool_index = Ok descriptions.
Proof.
  induction 1 as [|[name t] r Ht _ [rest IH]]; simpl.
  - now exists [].
  - destruct (tool_params_ok t Ht) as [params Hp]. rewrite Hp, IH. simpl. eauto.
Qed.

Lemma tool_descriptions_in (tool_index : list (string * tool)) :
  forall descriptions,
    tool_descriptions py_str tool_index = Ok descriptions ->
    forall name t, In (name, t) tool_index ->
      exists params, In (tool_description_block py_str name t params) descriptions.
Proof.
  induction tool_index as [|[name0 t0] r IH]; intros descriptions H name t Hin;
    [contradiction|].
  simpl in H. destruct (tool_params py_str t0) as [params|]; [|discriminate].
  destruct (tool_descriptions py_str r) as [rest|]; [|discriminate].
  simpl in H. injection H as <-. destruct Hin as [E | Hin].
  - injection E as <- <-. exists params. now left.
  - destruct (IH rest eq_refl name t Hin) as [ps Hps]. exists ps. now right.
Qed.

Lemma block_names_tool (name : string) (t : tool) (params : list string) :
  PyStr.contains (name ++ ":" ++ nl ++ py_str (tool_description t) ++ nl ++ "Parameters:")
    (tool_description_block py_str name t params) = true.
Proof.
  unfold tool_description_block.
  set (rest := nl ++ match params with [] => "  (no parameters)" | _ => PyStr.join nl params end).
  assert (E : name ++ ":" ++ nl ++ py_str (tool_description t) ++ nl ++ "Parameters:" ++ rest
              = (name ++ ":" ++ nl ++ py_str (tool_description t) ++ nl ++ "Parameters:") ++ rest)
    by (rewrite !string_app_assoc; reflexivity).
  rewrite E. apply contains_of_prefix, prefix_app_self.
Qed.

(** X1: for a registry whose schemas are dicts with, at most, a dict of
    dicts under "properties", [create_system_prompt] returns a prompt that
    opens with the fixed introduction, names every tool with its
    description and the heading of its parameters, and holds the rule of
    one JSON object per step and the three worked examples. *)
Theorem system_prompt_content :
  forall tool_index : list (string * tool),
    Forall (fun entry => schema_ok (snd entry)) tool_index ->
    exists prompt : string,
      create_system_prompt py_str tool_index = Ok prompt
      /\ String.prefix prompt_head prompt = true
      /\ (forall name t, In (name, t) tool_index ->
            PyStr.contains
              (name ++ ":" ++ nl ++ py_str (tool_description t) ++ nl ++ "Parameters:")
              prompt = true)
      /\ PyStr.contains "Output ONLY ONE JSON object per step" prompt = true
      /\ PyStr.contains
           (dq_text "{'action':'get_weather','args':{'latitude':40.7128,'longitude':-74.006}}")
           prompt = true
      /\ PyStr.contains (dq_text "{'action':'random_joke','args':{}}") prompt = true
      /\ PyStr.contains (dq_text "{'action':'final','answer':") prompt = true.
Proof.
  intros tool_index Hok.
  destruct (tool_descriptions_ok tool_index Hok) as [descriptions Hd].
  exists (prompt_head ++ PyStr.join (nl ++ nl) descriptions ++ prompt_tail).
  split; [unfold create_system_prompt; now rewrite Hd|].
  split; [apply prefix_app_self|].
  split.
  - intros name t Hin.
    destruct (tool_descriptions_in tool_index descriptions Hd name t Hin) as [params Hp].
    apply contains_app_r, contains_app_l.
    apply contains_join with (tool_description_block py_str name t params); [exact Hp|].
    apply block_names_tool.
  - repeat split; apply contains_app_r, contains_app_r; vm_compute; reflexivity.
Qed.

(** X2: when the "properties" of some tool's schema is not a dict (a list
    of names, say), [create_system_prompt] raises and no prompt is made. *)
Theorem system_prompt_malformed_schema :
  forall (tool_index : list (string * tool)) (name : string) (t : tool)
         (schema : pydict) (properties : json),
    In (name, t) tool_index ->
    tool_input_schema t = JDict schema ->
    dict_get schema "properties" = Some properties ->
    (forall d, properties <> JDict d) ->
    exists e : exn, create_system_prompt py_str tool_index = Raise e.
Proof.
  intros tool_index name t schema properties Hin Hs Hp Hnd.
  assert (Ht : tool_params py_str t = Raise AttributeError).
  { unfold tool_params. rewrite Hs.
    assert (Htruthy : py_truthy (JDict schema) = true)
      by (destruct schema; [discriminate | reflexivity]).
    rewrite Htruthy. cbn [has_properties bind]. unfold dict_has. rewrite Hp.
    cbn [py_getitem_key]. rewrite Hp. cbn [bind].
    destruct properties; try reflexivity. now destruct (Hnd d). }
  assert (Hd : exists e, tool_descriptions py_str tool_index = Raise e).
  { induction tool_index as [|[name0 t0] r IH]; [contradiction|].
    simpl. destruct Hin as [E | Hin].
    - injection E as -> ->. rewrite Ht. simpl. eauto.
    - destruct (tool_params py_str t0) as [params|e0]; [|simpl; eauto].
      destruct (IH Hin) as [e He]. rewrite He. simpl. eauto. }
  destruct Hd as [e He]. exists e. unfold create_system_prompt. now rewrite He.
Qed.

End SystemPromptFacts.

(** The prompt of the two-tool registry. *)
Lemma system_prompt_content_witness :
  exists prompt : string,
    create_system_prompt Ref.str example_tools = Ok prompt
    /\ PyStr.contains
         ("random_joke:" ++ nl ++ "Return a safe, single-line joke." ++ nl ++ "Parameters:")
         prompt = true.
Proof.
  assert (Hok : Forall (fun entry => schema_ok (snd entry)) example_tools).
  { repeat constructor; simpl; eauto. }
  destruct (system_prompt_content Ref.str example_tools Hok)
    as (prompt & Hp & _ & Hnames & _).
  exists prompt. split; [exact Hp|].
  apply (Hnames "random_joke" (mkTool (JStr "Return a safe, single-line joke.")
                               (JDict [("properties", JDict []); ("type", JStr "object")]))).
  right. now left.
Defined.

(** The registry whose tool lists its parameters. *)
Lemma system_prompt_malformed_schema_witness :
  exists e : exn, create_system_prompt Ref.str malformed_tools = Raise e.
Proof.
  apply (system_prompt_malformed_schema Ref.str malformed_tools "odd"
           (mkTool JNull (JDict [("properties", JList [JStr "x"])]))
           [("properties", JList [JStr "x"])] (JList [JStr "x"])).
  - now left.
  - reflexivity.
  - reflexivity.
  - discriminate.
Defined.

(* ------------------------------------------------------------------ *)
(** ** More on the decoder *)

Lemma upto_last_split (close : ascii) (s p : string) :
  upto_last close s = Some p ->
  exists rest : string,
    s = p ++ rest /\ ends_with close p /\ upto_last close rest = None.
Proof.
  revert p. induction s as [|c s IH]; intros p; cbn [upto_last]; [discriminate|].
  destruct (upto_last close s) as [q|] eqn:E.
  - intro H. injection H as <-. destruct (IH q eq_refl) as (rest & -> & [body ->] & Hn).
    exists rest. repeat split; [|exact Hn]. now exists (String c body).
  - destruct (Ascii.eqb c close) eqn:Ec; [|discriminate].
    intro H. injection H as <-. apply Ascii.eqb_eq in Ec. subst c.
    exists s. repeat split; [|exact E]. now exists "".
Qed.

Lemma upto_last_none (close : ascii) (s : string) :
  upto_last close s = None -> PyStr.contains (String close EmptyString) s = false.
Proof.
  induction s as [|c s IH]; cbn [upto_last]; [reflexivity|].
  destruct (upto_last close s); [discriminate|].
  destruct (Ascii.eqb c close) eqn:Ec; [discriminate|].
  intros _. cbn [PyStr.contains String.prefix].
  destruct (ascii_dec close c) as [->|]; [now rewrite Ascii.eqb_refl in Ec|].
  now apply IH.
Qed.

Lemma prefix_first (c : ascii) (s : string) :
  String.prefix (String c EmptyString) (String c s) = true.
Proof. apply (prefix_app_self (String c EmptyString) s). Qed.

(** X3: what the pattern search of lines 158-159 finds is a piece of the
    text that opens with a brace and ends with a closing brace, or opens
    with a bracket and ends with a closing bracket; and it is greedy: the
    text after the piece holds no further closing character of that kind. *)
Theorem re_search_json_shape :
  forall content matched : string,
    re_search_json content = Some matched ->
    exists before after : string,
      content = before ++ matched ++ after
      /\ ((String.prefix "{" matched = true /\ ends_with "}"%char matched
           /\ PyStr.contains "}" after = false)
          \/ (String.prefix "[" matched = true /\ ends_with "]"%char matched
              /\ PyStr.contains "]" after = false)).
Proof.
  intros content. induction content as [|c r IH]; intros matched; cbn [re_search_json];
    [discriminate|].
  assert (Hrec : re_search_json r = Some matched ->
                 exists before after : string,
                   String c r = before ++ matched ++ after
                   /\ ((String.prefix "{" matched = true /\ ends_with "}"%char matched
                        /\ PyStr.contains "}" after = false)
                       \/ (String.prefix "[" matched = true /\ ends_with "]"%char matched
                           /\ PyStr.contains "]" after = false))).
  { intro H. destruct (IH matched H) as (before & after & -> & Hshape).
    now exists (String c before), after. }
  destruct (Ascii.eqb c "{"%char) eqn:Eb.
  - apply Ascii.eqb_eq in Eb. subst c.
    destruct (upto_last "}"%char r) as [p|] eqn:Ep; [|exact Hrec].
    intro H. injection H as <-.
    destruct (upto_last_split _ _ _ Ep) as (rest & -> & [body ->] & Hn).
    exists "", rest. split; [reflexivity|]. left.
    split; [apply prefix_first|]. split; [now exists (String "{"%char body)|].
    now apply upto_last_none.
  - destruct (Ascii.eqb c "["%char) eqn:Ek; [|exact Hrec].
    apply Ascii.eqb_eq in Ek. subst c.
    destruct (upto_last "]"%char r) as [p|] eqn:Ep; [|exact Hrec].
    intro H. injection H as <-.
    destruct (upto_last_split _ _ _ Ep) as (rest & -> & [body ->] & Hn).
    exists "", rest. split; [reflexivity|]. right.
    split; [apply prefix_first|]. split; [now exists (String "["%char body)|].
    now apply upto_last_none.
Qed.

(** A reply with two objects: the search takes both as one piece. *)
Lemma re_search_json_shape_witness :
  exists before after : string,
    (dq_text "Sure: {'action':'trivia'} or {'action':'final'}.")
    = before ++ (dq_text "{'action':'trivia'} or {'action':'final'}") ++ after.
Proof.
  destruct (re_search_json_shape
              (dq_text "Sure: {'action':'trivia'} or {'action':'final'}.")
              (dq_text "{'action':'trivia'} or {'action':'final'}") eq_refl)
    as (before & after & H & _).
  now exists before, after.
Defined.

Section MoreDecoderFacts.

Variable json_loads : string -> option json.
Variable py_str : json -> string.
Variable re_search_coords : string -> option (float * float).

Lemma decode_parsed_has_action (parsed : json) :
  dict_has (decode_parsed py_str parsed) "action" = true.
Proof.
  destruct parsed as [| b | z | f | s | l | o]; try reflexivity.
  - rewrite decode_parsed_list.
    destruct (first_action_item l) as [item|] eqn:E.
    + now apply first_action_item_has_action with l.
    + now destruct l.
  - apply decode_parsed_dict_shaped.
Qed.

Lemma decode_fallback_has_action (content : string) :
  dict_has (decode_fallback json_loads re_search_coords content) "action" = true.
Proof.
  unfold decode_fallback.
  destruct (decode_embedded json_loads content) as [d|] eqn:E.
  - now apply decode_embedded_has_action with json_loads content.
  - destruct (decode_heuristic_well_formed re_search_coords content)
      as [[Ha _] | [name [args [Ha _]]]]; unfold dict_has; now rewrite Ha.
Qed.

Lemma decode_has_action (raw : string) (d : pydict) :
  decode json_loads py_str re_search_coords raw = Ok d -> dict_has d "action" = true.
Proof.
  rewrite decode_eq. intro H. injection H as <-.
  destruct (json_loads (clean raw)).
  - apply decode_parsed_has_action.
  - apply decode_fallback_has_action.
Qed.

(** X4: a reply that is empty once the code fences and the outer
    whitespace are removed is decoded as a Final with the empty answer
    ([json.loads] rejects the empty text). *)
Theorem decode_blank :
  forall raw : string,
    clean raw = "" ->
    json_loads "" = None ->
    decode json_loads py_str re_search_coords raw = Ok (final_action (JStr "")).
Proof.
  intros raw Hclean Hloads. rewrite decode_eq, Hclean, Hloads. reflexivity.
Qed.

(** X5: an object with "action": "final" is always decoded as a Final whose
    answer is true in Python's sense: the answer of the object when that
    is so, the fixed fallback text otherwise (missing, empty, null, zero,
    false, an empty list or dict). *)
Theorem final_answer_never_empty :
  forall o : pydict,
    dict_get o "action" = Some (JStr "final") ->
    exists answer : json,
      decode_parsed py_str (JDict o) = final_action answer
      /\ py_truthy answer = true
      /\ (dict_get o "answer" = Some answer \/ answer = JStr empty_answer_fallback).
Proof.
  intros o Ha. unfold decode_parsed, dict_has, dict_get_default. rewrite Ha.
  cbn [py_eq_str]. rewrite String.eqb_refl.
  destruct (dict_get o "answer") as [v|].
  - destruct (py_truthy v) eqn:Ev; cbn [negb].
    + exists v. auto.
    + exists (JStr empty_answer_fallback). auto.
  - exists (JStr empty_answer_fallback). auto.
Qed.

(** X6: decoding an object that has an "action" key keeps the value of
    that key, whatever its type, and normalises once and for all: decoding
    the result again changes nothing. *)
Theorem decode_parsed_stable :
  forall (o : pydict) (action : json),
    dict_get o "action" = Some action ->
    dict_get (decode_parsed py_str (JDict o)) "action" = Some action
    /\ decode_parsed py_str (JDict (decode_parsed py_str (JDict o)))
       = decode_parsed py_str (JDict o).
Proof.
  intros o action Ha. unfold decode_parsed at 1 3 4, dict_has, dict_get_default. rewrite Ha.
  destruct (py_eq_str action "final") eqn:Ef.
  - apply py_eq_str_true in Ef. subst action.
    assert (Hfix : forall answer, py_truthy answer = true ->
              decode_parsed py_str (JDict (final_action answer)) = final_action answer).
    { intros answer Ht. unfold decode_parsed, final_action, dict_has, dict_get_default.
      cbn [dict_get String.eqb Ascii.eqb Bool.eqb py_eq_str]. now rewrite Ht. }
    destruct (dict_get o "answer") as [v|]; [destruct (py_truthy v) eqn:Ev|]; cbn [negb];
      (split; [reflexivity | now apply Hfix]).
  - split; [reflexivity|].
    assert (Hfix : forall args, decode_parsed py_str (JDict (tool_action action (JDict args)))
                                = tool_action action (JDict args)).
    { intro args. unfold decode_parsed, tool_action, dict_has, dict_get_default.
      cbn [dict_get String.eqb Ascii.eqb Bool.eqb]. now rewrite Ef. }
    destruct (dict_get o "args") as [[| | | | | |args]|]; apply Hfix.
Qed.

End MoreDecoderFacts.

(** A reply that holds only a code fence. *)
Lemma decode_blank_witness :
  decode Ref.loads Ref.str Ref.no_coords "  ```json ```  " = Ok (final_action (JStr "")).
Proof.
  exact (decode_blank Ref.loads Ref.str Ref.no_coords "  ```json ```  " eq_refl eq_refl).
Defined.

(** A final object whose answer is an empty list. *)
Lemma final_answer_never_empty_witness :
  exists answer : json,
    decode_parsed Ref.str (JDict [("action", JStr "final"); ("answer", JList [])])
    = final_action answer
    /\ py_truthy answer = true.
Proof.
  destruct (final_answer_never_empty Ref.str
              [("action", JStr "final"); ("answer", JList [])] eq_refl)
    as (answer & H & Ht & _).
  now exists answer.
Defined.

(** A tool call whose name is a number and whose args is a string. *)
Lemma decode_parsed_stable_witness :
  dict_get (decode_parsed Ref.str (JDict [("action", JInt 7); ("args", JStr "x")])) "action"
  = Some (JInt 7).
Proof.
  exact (proj1 (decode_parsed_stable Ref.str [("action", JInt 7); ("args", JStr "x")]
                  (JInt 7) eq_refl)).
Defined.

(* ------------------------------------------------------------------ *)
(** ** More on the decision call *)

Section MoreLlmJsonFacts.

Variable json_loads : string -> option json.
Variable py_str : json -> string.
Variable re_search_coords : string -> option (float * float).
Variable post_chat : list turn -> outcome response.

(** X7: whatever [llm_json] returns is a dict with an "action" key, so the
    loop's [decision.get("action")] always finds one. *)
Theorem llm_json_returns_action :
  forall (messages : list turn) (decision : pydict),
    llm_json json_loads py_str re_search_coords post_chat messages = Ok decision ->
    dict_has decision "action" = true.
Proof.
  intros messages decision. unfold llm_json, try_except, bind.
  destruct (post_chat messages) as [r|e].
  - destruct (negb (Z.eqb (status_code r) 200)).
    + intro H. now injection H as <-.
    + destruct (response_json json_loads r) as [result|e]; cbn [is_RequestException].
      * destruct (message_content result) as [content|e].
        -- destruct (as_str content) as [raw|e].
           ++ destruct (decode json_loads py_str re_search_coords raw) as [d|e] eqn:Hd.
              ** intro H. injection H as <-. now apply decode_has_action in Hd.
              ** destruct (is_RequestException e); [|discriminate].
                 intro H. now injection H as <-.
           ++ destruct (is_RequestException e); [|discriminate].
              intro H. now injection H as <-.
        -- destruct (is_RequestException e); [|discriminate].
           intro H. now injection H as <-.
      * destruct (is_RequestException e); [|discriminate].
        intro H. now injection H as <-.
  - destruct (is_RequestException e); [|discriminate].
    intro H. now injection H as <-.
Qed.

(** X8: no [RequestException] leaves [llm_json]: what it raises is an
    exception of another class, from the call itself or from reading a
    body of the wrong shape. *)
Theorem llm_json_raises_no_request_exception :
  forall (messages : list turn) (e : exn),
    llm_json json_loads py_str re_search_coords post_chat messages = Raise e ->
    is_RequestException e = false.
Proof.
  intros messages e. unfold llm_json, try_except, bind.
  assert (Hcatch : forall (e0 : exn),
            (if is_RequestException e0
             then Ok (final_action (JStr connection_apology)) else Raise e0) = Raise e ->
            is_RequestException e = false).
  { intro e0. destruct (is_RequestException e0) eqn:E; [discriminate|].
    intro H. now injection H as <-. }
  destruct (post_chat messages) as [r|e0]; [|apply Hcatch].
  destruct (negb (Z.eqb (status_code r) 200)); [discriminate|].
  destruct (response_json json_loads r) as [result|e0]; [|apply Hcatch].
  destruct (message_content result) as [content|e0]; [|apply Hcatch].
  destruct (as_str content) as [raw|e0]; [|apply Hcatch].
  rewrite decode_eq. discriminate.
Qed.

End MoreLlmJsonFacts.

(** The service answers with a final action. *)
Lemma llm_json_returns_action_witness :
  llm_json Ref.loads Ref.str Ref.no_coords (fun _ => Ok hello_reply) [mkTurn User (JStr "hi")]
  = Ok (final_action (JStr "Hello!"))
  /\ dict_has (final_action (JStr "Hello!")) "action" = true.
Proof.
  split; [reflexivity|].
  exact (llm_json_returns_action Ref.loads Ref.str Ref.no_coords (fun _ => Ok hello_reply)
           [mkTurn User (JStr "hi")] (final_action (JStr "Hello!")) eq_refl).
Defined.

(** The service answers 200 with the body [{}]. *)
Lemma llm_json_raises_no_request_exception_witness :
  llm_json Ref.loads Ref.str Ref.no_coords (fun _ => Ok (mkResponse 200 "{}"))
    [mkTurn User (JStr "hi")]
  = Raise KeyError
  /\ is_RequestException KeyError = false.
Proof.
  split; [reflexivity|].
  exact (llm_json_raises_no_request_exception Ref.loads Ref.str Ref.no_coords
           (fun _ => Ok (mkResponse 200 "{}")) [mkTurn User (JStr "hi")] KeyError eq_refl).
Defined.

(* ------------------------------------------------------------------ *)
(** ** Turns per pass and per message *)

Section TurnFacts.

Variable json_loads : string -> option json.
Variable py_str : json -> string.
Variable decide : list turn -> outcome pydict.
Variable post_reflect : json -> outcome response.
Variable call_tool : list turn -> string -> json -> tool_outcome.
Variable tool_names : list string.

Lemma invoke_tool_one_turn (name : string) (args : json) (st : state) :
  exists content,
    history (invoke_tool json_loads py_str call_tool name args st)
    = (history st ++ [mkTurn Assistant content])%list.
Proof.
  unfold invoke_tool. cbn [log history].
  destruct (call_tool (history st) name args); cbn [append_turn set_gathered log history]; eauto.
Qed.

Lemma review_and_finish_effect (answer : json) (st : state) :
  pass_effect (history st)
    (history (fst (review_and_finish json_loads post_reflect answer st)))
    (snd (review_and_finish json_loads post_reflect answer st)).
Proof.
  assert (Hone : forall c, exists turns,
            (history st ++ [mkTurn Assistant c])%list = (history st ++ turns)%list
            /\ Forall is_assistant turns /\ 1 <= List.length turns <= 2).
  { intro c. exists [mkTurn Assistant c]. repeat split; simpl; auto. constructor; [reflexivity|constructor]. }
  unfold review_and_finish.
  destruct (py_len answer) as [n|e]; [|reflexivity].
  destruct (Nat.ltb 150 n); [|apply Hone].
  destruct (reflect_with_groq json_loads post_reflect answer); [apply Hone | reflexivity].
Qed.

Lemma dispatch_effect (step : nat) (decision : pydict) (st : state) :
  pass_effect (history st)
    (history (fst (dispatch json_loads py_str call_tool tool_names step decision st)))
    (snd (dispatch json_loads py_str call_tool tool_names step decision st)).
Proof.
  unfold dispatch.
  destruct (negb (py_truthy _)); [cbn; eauto|].
  destruct (negb (py_hashable _)); [reflexivity|].
  destruct (registered tool_names _) as [name|]; [|cbn; eauto].
  destruct (invoke_tool_one_turn name (dict_get_default decision "args" (JDict [])) st)
    as [content Hc].
  unfold budget_check. destruct (Nat.leb 11 step); cbn [fst snd pass_effect].
  - cbn [append_turn history]. rewrite Hc.
    exists [mkTurn Assistant content;
            mkTurn Assistant
              (JStr (budget_answer py_str
                       (gathered (invoke_tool json_loads py_str call_tool name
                                    (dict_get_default decision "args" (JDict [])) st))))].
    rewrite <- app_assoc. repeat split; simpl; auto.
    repeat constructor.
  - now exists content.
Qed.

Lemma loop_body_effect (user : string) (step : nat) (st : state) :
  pass_effect (history st)
    (history (fst (loop_body json_loads py_str decide post_reflect call_tool tool_names
                     user step st)))
    (snd (loop_body json_loads py_str decide post_reflect call_tool tool_names user step st)).
Proof.
  unfold loop_body. cbn [log history]. fold (log (DecideCall (history st)) st).
  destruct (decide (history st)) as [decision|e]; [|reflexivity].
  destruct (is_final decision).
  - apply (review_and_finish_effect _ (log (DecideCall (history st)) st)).
  - apply (dispatch_effect step decision (log (DecideCall (history st)) st)).
Qed.

Lemma finish_never_continues (user : string) (decision : pydict) (st : state) :
  snd (finish json_loads py_str post_reflect user decision st) <> Continue.
Proof.
  unfold finish, review_and_finish.
  destruct (py_len _); [|discriminate].
  destruct (Nat.ltb 150 _); [|discriminate].
  destruct (reflect_with_groq _ _ _); discriminate.
Qed.

(** X9: a pass through the loop body asks for exactly one decision; when
    an exception goes up it has appended no turn; when the loop goes on it
    has appended exactly one assistant turn; when the loop breaks it has
    appended one assistant turn, or two (the tool's result and the forced
    answer); and a final decision never lets the loop go on. *)
Theorem pass_accounting :
  forall (user : string) (step : nat) (st : state),
    let pass := loop_body json_loads py_str decide post_reflect call_tool tool_names
                  user step st in
    pass_effect (history st) (history (fst pass)) (snd pass)
    /\ (exists calls,
          trace (fst pass) = (trace st ++ DecideCall (history st) :: calls)%list
          /\ decide_calls calls = 0)
    /\ (forall decision,
          decide (history st) = Ok decision -> is_final decision = true ->
          snd pass <> Continue).
Proof.
  intros user step st pass. split; [apply loop_body_effect|]. split.
  - unfold pass, loop_body. cbn [log history].
    fold (log (DecideCall (history st)) st).
    destruct (decide (history st)) as [decision|e]; [|exists []; cbn; auto].
    destruct (is_final decision).
    + unfold finish, review_and_finish.
      destruct (py_len _); [|exists []; cbn; auto].
      destruct (Nat.ltb 150 _); [|exists []; cbn; auto].
      destruct (reflect_with_groq _ _ _); cbn [fst append_turn log trace];
        rewrite <- app_assoc; eexists; split; reflexivity.
    + unfold dispatch.
      destruct (negb (py_truthy _)); [exists []; cbn; auto|].
      destruct (negb (py_hashable _)); [exists []; cbn; auto|].
      destruct (registered tool_names _) as [name|]; [|exists []; cbn; auto].
      unfold budget_check, invoke_tool. cbn [log history trace].
      destruct (Nat.leb 11 step), (call_tool _ name _);
        cbn [fst append_turn set_gathered log trace history];
        rewrite <- app_assoc; eexists; split; reflexivity.
  - intros decision Hd Hf. unfold pass, loop_body. cbn [log history].
    rewrite Hd, Hf. apply finish_never_continues.
Qed.

Lemma for_steps_turns (user : string) (steps : list nat) :
  forall st : state,
    exists answers : list turn,
      history (fst (for_steps json_loads py_str decide post_reflect call_tool tool_names
                      user steps st))
      = (history st ++ answers)%list
      /\ Forall is_assistant answers
      /\ List.length answers <= List.length steps + 1
      /\ (snd (for_steps json_loads py_str decide post_reflect call_tool tool_names
                 user steps st) = Completed ->
          steps <> [] -> 1 <= List.length answers).
Proof.
  induction steps as [|step r IH]; intro st; cbn [for_steps].
  - exists []. rewrite app_nil_r. cbn [fst snd List.length].
    split; [reflexivity|]. split; [constructor|]. split; [lia|].
    intros _ H. now destruct H.
  - pose proof (loop_body_effect user step st) as E.
    destruct (loop_body _ _ _ _ _ _ user step st) as [st' c]. cbn [fst snd] in E.
    destruct c; cbn [pass_effect] in E.
    + destruct E as [content E]. destruct (IH st') as (more & Hh & Hf & Hl & _).
      exists (mkTurn Assistant content :: more). rewrite Hh, E, <- app_assoc.
      split; [reflexivity|]. split; [constructor; [reflexivity | exact Hf]|].
      cbn [List.length]. split; [lia|]. intros _ _. lia.
    + destruct E as (turns & E & Hf & Hl). exists turns. cbn [fst snd List.length].
      split; [exact E|]. split; [exact Hf|]. split; [lia|]. intros _ _. lia.
    + exists []. cbn [fst snd List.length]. rewrite app_nil_r.
      split; [exact E|]. split; [constructor|]. split; [lia|]. discriminate.
Qed.

(** X10: handling one user message appends the user's turn and then
    assistant turns only, at most thirteen of them (twelve passes and the
    forced answer); and when the loop ends without an exception there is
    at least one, so every message that is handled to the end is
    answered. *)
Theorem message_turns :
  forall (user : string) (st : state),
    let run := run_message json_loads py_str decide post_reflect call_tool tool_names
                 user st in
    exists answers : list turn,
      history (fst run) = (history st ++ mkTurn User (JStr user) :: answers)%list
      /\ Forall is_assistant answers
      /\ List.length answers <= 13
      /\ (snd run = Completed -> 1 <= List.length answers).
Proof.
  intros user st run. unfold run, run_message.
  destruct (for_steps_turns user (seq 0 max_steps)
              (set_gathered no_info (append_turn User (JStr user) st)))
    as (answers & Hh & Hf & Hl & Hc).
  exists answers. rewrite Hh. cbn [set_gathered append_turn history].
  rewrite <- app_assoc.
  split; [reflexivity|]. split; [exact Hf|].
  split; [unfold max_steps in Hl; rewrite length_seq in Hl; lia|].
  intro H. apply Hc; [exact H | discriminate].
Qed.

(** X11: when the first decision for a message is final, with a string
    answer of at most 150 characters, the message costs one decision call
    and nothing else: the history gains the user's turn and the answer,
    no tool and no reflection is called, and the loop ends. *)
Theorem immediate_final_answer :
  forall (user : string) (st : state) (decision : pydict) (s : string),
    decide (history st ++ [mkTurn User (JStr user)])%list = Ok decision ->
    is_final decision = true ->
    dict_get_default decision "answer" (JStr "") = JStr s ->
    String.length s <= 150 ->
    run_message json_loads py_str decide post_reflect call_tool tool_names user st
    = (mkState (history st ++ [mkTurn User (JStr user); mkTurn Assistant (JStr s)])%list
         no_info
         (trace st ++ [DecideCall (history st ++ [mkTurn User (JStr user)])%list])%list,
       Completed).
Proof.
  intros user st decision s Hd Hf Ha Hlen.
  set (st0 := set_gathered no_info (append_turn User (JStr user) st)).
  assert (Hpass :
    loop_body json_loads py_str decide post_reflect call_tool tool_names user 0 st0
    = (append_turn Assistant (JStr s) (log (DecideCall (history st0)) st0), Break)).
  { unfold loop_body, st0. cbn [log set_gathered append_turn history]. rewrite Hd, Hf.
    unfold finish. rewrite Ha.
    assert (Hc : forall ev,
              combine_answer py_str user
                (gathered (log ev (set_gathered no_info (append_turn User (JStr user) st))))
                (JStr s) = JStr s) by reflexivity.
    rewrite Hc. unfold review_and_finish.
    assert (E : Nat.ltb 150 (String.length s) = false) by (apply Nat.ltb_ge; exact Hlen).
    cbn [py_len]. rewrite E. reflexivity. }
  unfold run_message. fold st0. change (seq 0 max_steps) with (0 :: seq 1 11).
  cbn [for_steps]. rewrite Hpass.
  unfold st0, append_turn, log, set_gathered. cbn [history gathered trace].
  now rewrite <- app_assoc.
Qed.

(** X12: a final decision whose answer is null, a boolean or a number,
    met when nothing has been gathered, ends the pass with a [TypeError]
    (from [len(answer)]) and without an assistant turn. *)
Theorem unsized_answer_crashes :
  forall (user : string) (step : nat) (st : state) (decision : pydict) (answer : json),
    decide (history st) = Ok decision ->
    is_final decision = true ->
    dict_get decision "answer" = Some answer ->
    unsized answer = true ->
    existsb py_truthy (gathered_values (gathered st)) = false ->
    loop_body json_loads py_str decide post_reflect call_tool tool_names user step st
    = (log (DecideCall (history st)) st, Uncaught TypeError).
Proof.
  intros user step st decision answer Hd Hf Ha Hu Hg.
  unfold loop_body. cbn [log history]. rewrite Hd, Hf.
  unfold finish, dict_get_default. rewrite Ha.
  unfold combine_answer. cbn [log gathered]. rewrite Hg.
  unfold review_and_finish. now destruct answer.
Qed.

(** X13: a decision whose action is a non-empty list or dict ends the
    pass with a [TypeError] (the value cannot be looked up in the
    registry) and without an assistant turn. *)
Theorem unhashable_action_crashes :
  forall (user : string) (step : nat) (st : state) (decision : pydict) (action : json),
    decide (history st) = Ok decision ->
    dict_get decision "action" = Some action ->
    py_truthy action = true ->
    py_hashable action = false ->
    loop_body json_loads py_str decide post_reflect call_tool tool_names user step st
    = (log (DecideCall (history st)) st, Uncaught TypeError).
Proof.
  intros user step st decision action Hd Ha Ht Hh.
  unfold loop_body. cbn [log history]. rewrite Hd.
  assert (Hf : is_final decision = false).
  { unfold is_final. rewrite Ha. now destruct action. }
  rewrite Hf. unfold dispatch, dict_get_default. rewrite Ha, Ht, Hh. reflexivity.
Qed.

End TurnFacts.

(** The first decision answers the greeting. *)
Lemma immediate_final_answer_witness :
  run_message Ref.loads Ref.str (fun _ => Ok (final_action (JStr "Hello!"))) no_service
    failing_tool two_tools "hi" start_state
  = (mkState (history start_state
              ++ [mkTurn User (JStr "hi"); mkTurn Assistant (JStr "Hello!")])%list
       no_info
       (trace start_state
        ++ [DecideCall (history start_state ++ [mkTurn User (JStr "hi")])%list])%list,
     Completed).
Proof.
  apply (immediate_final_answer Ref.loads Ref.str (fun _ => Ok (final_action (JStr "Hello!")))
           no_service failing_tool two_tools "hi" start_state
           (final_action (JStr "Hello!")) "Hello!").
  - reflexivity.
  - reflexivity.
  - reflexivity.
  - vm_compute. lia.
Defined.

(** The decision is a Final whose answer is the number 5. *)
Lemma unsized_answer_crashes_witness :
  loop_body Ref.loads Ref.str (fun _ => Ok (final_action (JInt 5))) no_service failing_tool
    two_tools "hi" 0 start_state
  = (log (DecideCall (history start_state)) start_state, Uncaught TypeError).
Proof.
  exact (unsized_answer_crashes Ref.loads Ref.str (fun _ => Ok (final_action (JInt 5)))
           no_service failing_tool two_tools "hi" 0 start_state
           (final_action (JInt 5)) (JInt 5) eq_refl eq_refl eq_refl eq_refl eq_refl).
Defined.

(** The same through [llm_json]: the model writes [{"answer": null}]. *)
Example session_with_null_answer :
  snd (agent_session Ref.loads Ref.str Ref.no_coords (fun _ => Ok null_answer_reply)
         no_service failing_tool two_tools "prompt" ["hi"; "exit"])
  = SessionCrashed TypeError.
Proof. vm_compute. reflexivity. Qed.

(** The decision names its tool inside a list. *)
Lemma unhashable_action_crashes_witness :
  loop_body Ref.loads Ref.str (fun _ => Ok list_action_decision) no_service failing_tool
    two_tools "hi" 0 start_state
  = (log (DecideCall (history start_state)) start_state, Uncaught TypeError).
Proof.
  exact (unhashable_action_crashes Ref.loads Ref.str (fun _ => Ok list_action_decision)
           no_service failing_tool two_tools "hi" 0 start_state
           list_action_decision (JList [JStr "get_weather"]) eq_refl eq_refl eq_refl eq_refl).
Defined.

(* ------------------------------------------------------------------ *)
(** ** Gathered information *)

Lemma string_app_not_empty (a : string) (c : ascii) (r : string) :
  String.eqb (a ++ String c r) "" = false.
Proof. now destruct a. Qed.


Section GatherFacts.

Variable json_loads : string -> option json.
Variable py_str : json -> string.

(** X14: the result of a tool changes the entry of that tool only: the
    other four entries stay as they were, and a tool without an entry
    (convert_currency, say) changes none. *)
Theorem gather_frame :
  forall (tname payload : string) (g : gathered_info),
    (tname <> "get_weather" ->
     g_weather (gather json_loads py_str tname payload g) = g_weather g)
    /\ (tname <> "book_recs" ->
        g_books (gather json_loads py_str tname payload g) = g_books g)
    /\ (tname <> "random_joke" ->
        g_joke (gather json_loads py_str tname payload g) = g_joke g)
    /\ (tname <> "random_dog" ->
        g_dog (gather json_loads py_str tname payload g) = g_dog g)
    /\ (tname <> "trivia" ->
        g_trivia (gather json_loads py_str tname payload g) = g_trivia g)
    /\ (~ In tname ["get_weather"; "book_recs"; "random_joke"; "random_dog"; "trivia"] ->
        gather json_loads py_str tname payload g = g).
Proof.
  intros tname payload g. unfold gather.
  destruct (String.eqb tname "get_weather") eqn:E1;
    [apply String.eqb_eq in E1; subst; repeat split; try reflexivity;
     intro H; exfalso; apply H; simpl; auto|].
  destruct (String.eqb tname "book_recs") eqn:E2;
    [apply String.eqb_eq in E2; subst; repeat split; try reflexivity;
     intro H; exfalso; apply H; simpl; auto|].
  destruct (String.eqb tname "random_joke") eqn:E3;
    [apply String.eqb_eq in E3; subst; repeat split; try reflexivity;
     intro H; exfalso; apply H; simpl; auto|].
  destruct (String.eqb tname "random_dog") eqn:E4;
    [apply String.eqb_eq in E4; subst; repeat split; try reflexivity;
     intro H; exfalso; apply H; simpl; auto|].
  destruct (String.eqb tname "trivia") eqn:E5;
    [apply String.eqb_eq in E5; subst; repeat split; try reflexivity;
     intro H; exfalso; apply H; simpl; auto 10|].
  repeat split; reflexivity.
Qed.

Lemma extract_weather_text (payload : string) (v : json) :
  extract_weather json_loads py_str payload = Ok v ->
  exists s, v = JStr s /\ py_truthy v = true.
Proof.
  unfold extract_weather, bind.
  destruct (loads json_loads payload) as [data|]; [|discriminate].
  destruct (as_dict data) as [d|]; [|discriminate].
  destruct (weather_desc _) as [desc|]; [|discriminate].
  intro H. injection H as <-. eexists. split; [reflexivity|].
  cbn [py_truthy]. unfold degrees. cbn [append].
  now rewrite string_app_not_empty.
Qed.

Lemma extract_books_text (payload : string) (v : json) :
  extract_books json_loads payload = Ok v -> exists s, v = JStr s.
Proof.
  unfold extract_books, bind.
  destruct (loads json_loads payload) as [data|]; [|discriminate].
  destruct (as_dict data) as [d|]; [|discriminate].
  destruct (slice2 _) as [books|]; [|discriminate].
  destruct (titles_of books) as [[|t r]|]; [| |discriminate].
  - intro H. injection H as <-. eauto.
  - destruct (str_items (t :: r)); [|discriminate].
    intro H. injection H as <-. eauto.
Qed.

(** X15: after a call of get_weather that returned, whatever the payload,
    the weather entry is a non-empty text, so it counts as gathered; after
    a call of book_recs that returned, the books entry is a text. *)
Theorem weather_and_books_entries :
  forall (payload : string) (g : gathered_info),
    (exists s, g_weather (gather json_loads py_str "get_weather" payload g) = JStr s
               /\ py_truthy (JStr s) = true)
    /\ (exists s, g_books (gather json_loads py_str "book_recs" payload g) = JStr s).
Proof.
  intros payload g. split.
  - change (g_weather (gather json_loads py_str "get_weather" payload g))
      with (recover (extract_weather json_loads py_str payload) (JStr "Weather data received")).
    destruct (extract_weather json_loads py_str payload) as [v|] eqn:E; cbn [recover].
    + destruct (extract_weather_text payload v E) as [s [-> Ht]]. eauto.
    + eauto.
  - change (g_books (gather json_loads py_str "book_recs" payload g))
      with (recover (extract_books json_loads payload) (JStr "Mystery book recommendations")).
    destruct (extract_books json_loads payload) as [v|] eqn:E; cbn [recover].
    + destruct (extract_books_text payload v E) as [s ->]. eauto.
    + eauto.
Qed.


(** X17: the books entry is made of the first two results only: when
    these are objects with text titles, the entry is the two titles with
    a comma between them, whatever follows them in the list. *)
Theorem books_first_two :
  forall (payload : string) (d b1 b2 : pydict) (rest : list json) (t1 t2 : string)
         (g : gathered_info),
    json_loads payload = Some (JDict d) ->
    dict_get d "results" = Some (JList (JDict b1 :: JDict b2 :: rest)) ->
    dict_get b1 "title" = Some (JStr t1) ->
    dict_get b2 "title" = Some (JStr t2) ->
    g_books (gather json_loads py_str "book_recs" payload g) = JStr (t1 ++ ", " ++ t2).
Proof.
  intros payload d b1 b2 rest t1 t2 g Hp Hr H1 H2.
  change (g_books (gather json_loads py_str "book_recs" payload g))
    with (recover (extract_books json_loads payload) (JStr "Mystery book recommendations")).
  unfold extract_books, loads, dict_get_default. rewrite Hp. cbn [bind as_dict].
  rewrite Hr. cbn [slice2 firstn bind titles_of as_dict]. unfold dict_get_default.
  rewrite H1, H2. reflexivity.
Qed.

(** X18: the forced answer is the apology exactly when no entry is true
    in Python's sense; otherwise it opens with "Based on what I found:". *)
Theorem forced_answer_apology :
  forall g : gathered_info,
    (budget_answer py_str g = budget_apology
     <-> existsb py_truthy (gathered_values g) = false)
    /\ (existsb py_truthy (gathered_values g) = true ->
        String.prefix "Based on what I found:" (budget_answer py_str g) = true).
Proof.
  intros [w b j d t].
  unfold budget_answer, gathered_values, gathered_items.
  cbn [final_parts map snd existsb g_weather g_books g_joke g_dog g_trivia].
  destruct (py_truthy w), (py_truthy b), (py_truthy j), (py_truthy d), (py_truthy t);
    cbn [orb]; (split; [split|]); intro H;
    solve [reflexivity | discriminate H
          | apply (prefix_app_self "Based on what I found:")
          | unfold budget_apology in H; cbn [append] in H; discriminate H].
Qed.

End GatherFacts.

(** Three results, the third one a number. *)
Lemma books_first_two_witness :
  g_books (gather Ref.loads Ref.str "book_recs" books_payload gathered_before)
  = JStr "Gone Girl, The Hound".
Proof.
  exact (books_first_two Ref.loads Ref.str books_payload
           [("topic", JStr "mystery");
            ("results", JList [JDict [("title", JStr "Gone Girl")];
                               JDict [("title", JStr "The Hound")]; JInt 7])]
           [("title", JStr "Gone Girl")] [("title", JStr "The Hound")] [JInt 7]
           "Gone Girl" "The Hound" gathered_before eq_refl eq_refl eq_refl eq_refl).
Defined.


(* ------------------------------------------------------------------ *)
(** ** The tools of the server *)

Section ServerFacts.

Variable json_loads : string -> option json.
Variable py_str : json -> string.
Variable http_get : string -> pydict -> outcome response.
Variable html_unescape : json -> outcome json.

Lemma fetch_json_error_status (url : string) (params : pydict) (r : response) :
  http_get url params = Ok r ->
  (400 <= status_code r < 600)%Z ->
  fetch_json json_loads http_get url params = Raise RequestException.
Proof.
  intros Hget [Hlo Hhi]. unfold fetch_json, raise_for_status. rewrite Hget. cbn [bind].
  apply Z.leb_le in Hlo. apply Z.ltb_lt in Hhi. now rewrite Hlo, Hhi.
Qed.

(** X19: when the provider answers a request with a status from 400 to
    599, each of the five tools raises the HTTP error and returns no
    data. *)
Theorem tools_raise_on_error_status :
  forall (r : response) (latitude longitude topic limit : json),
    (forall url params, http_get url params = Ok r) ->
    (400 <= status_code r < 600)%Z ->
    get_weather json_loads http_get latitude longitude = Raise RequestException
    /\ book_recs json_loads http_get topic limit = Raise RequestException
    /\ random_joke json_loads http_get = Raise RequestException
    /\ random_dog json_loads http_get = Raise RequestException
    /\ trivia json_loads http_get html_unescape = Raise RequestException.
Proof.
  intros r latitude longitude topic limit Hget Hstatus.
  unfold get_weather, book_recs, random_joke, random_dog, trivia.
  repeat split; rewrite (fetch_json_error_status _ _ r (Hget _ _) Hstatus); reflexivity.
Qed.

Lemma book_picks_shape (docs picks : list json) :
  book_picks docs = Ok picks ->
  List.length picks = List.length docs
  /\ Forall (fun pick => exists title author year work,
               pick = JDict [("title", title); ("author", author);
                             ("year", year); ("work", work)]) picks.
Proof.
  revert picks. induction docs as [|doc r IH]; intros picks; cbn [book_picks].
  - intro H. injection H as <-. split; [reflexivity | constructor].
  - unfold book_pick, bind.
    destruct (as_dict doc) as [d|]; [|discriminate].
    destruct (py_getitem_0 _) as [author|]; [|discriminate].
    destruct (book_picks r) as [rest|]; [|discriminate].
    intro H. injection H as <-. destruct (IH rest eq_refl) as [Hl Hf].
    split; [cbn [List.length]; now rewrite Hl|].
    constructor; [|exact Hf]. eauto 6.
Qed.

(** X20: what book_recs returns is always the topic it was given and a
    list of results in which every entry has exactly the keys title,
    author, year and work, in that order. *)
Theorem book_recs_shape :
  forall (topic limit v : json),
    book_recs json_loads http_get topic limit = Ok v ->
    exists picks : list json,
      v = JDict [("topic", topic); ("results", JList picks)]
      /\ Forall (fun pick => exists title author year work,
                   pick = JDict [("title", title); ("author", author);
                                 ("year", year); ("work", work)]) picks.
Proof.
  intros topic limit v. unfold book_recs, bind.
  destruct (fetch_json _ _ _ _) as [body|]; [|discriminate].
  destruct (as_dict body) as [d|]; [|discriminate].
  destruct (py_iter _) as [docs|]; [|discriminate].
  destruct (book_picks docs) as [picks|] eqn:E; [|discriminate].
  intro H. injection H as <-. exists picks. split; [reflexivity|].
  now apply book_picks_shape with docs.
Qed.

(** X21: the entry made for a document: without authors (the key missing,
    null or an empty list) the author is "Unknown"; with a list of authors
    it is the first of them; and a missing title, year or key becomes
    null. *)
Theorem book_pick_author :
  forall (d : pydict) (authors : json),
    dict_get_default d "author_name" JNull = authors ->
    (py_truthy authors = false ->
     book_pick (JDict d)
     = Ok (JDict [("title", dict_get_default d "title" JNull);
                  ("author", JStr "Unknown");
                  ("year", dict_get_default d "first_publish_year" JNull);
                  ("work", dict_get_default d "key" JNull)]))
    /\ (forall first others, authors = JList (first :: others) ->
        book_pick (JDict d)
        = Ok (JDict [("title", dict_get_default d "title" JNull);
                     ("author", first);
                     ("year", dict_get_default d "first_publish_year" JNull);
                     ("work", dict_get_default d "key" JNull)])).
Proof.
  intros d authors Ha. unfold book_pick, py_or. cbn [as_dict bind]. rewrite Ha. split.
  - intro Hf. now rewrite Hf.
  - intros first others ->. reflexivity.
Qed.

Lemma picks_have_titles (n : nat) (docs picks : list json) :
  book_picks docs = Ok picks ->
  exists titles, titles_of (firstn n picks) = Ok titles.
Proof.
  intro H. destruct (book_picks_shape docs picks H) as [_ Hf]. clear H.
  revert n. induction Hf as [|p l (t & a & y & w & ->) _ IH]; intros [|n]; cbn [firstn titles_of];
    try (now exists []).
  destruct (IH n) as [ts Ht]. cbn [as_dict bind]. rewrite Ht. cbn [bind]. eauto.
Qed.

(** X22: from server to agent: when the first document of the search has
    no title, its entry carries a null title, and the agent, reading the
    payload of book_recs, falls back to "Mystery book recommendations". *)
Theorem untitled_book_falls_back :
  forall (payload : string) (topic : json) (d : pydict) (docs picks : list json)
         (g : gathered_info),
    book_picks (JDict d :: docs) = Ok picks ->
    dict_get d "title" = None ->
    json_loads payload = Some (JDict [("topic", topic); ("results", JList picks)]) ->
    g_books (gather json_loads py_str "book_recs" payload g)
    = JStr "Mystery book recommendations".
Proof.
  intros payload topic d docs picks g Hpicks Ht Hp.
  change (g_books (gather json_loads py_str "book_recs" payload g))
    with (recover (extract_books json_loads payload) (JStr "Mystery book recommendations")).
  cbn [book_picks] in Hpicks. unfold book_pick, bind in Hpicks. cbn [as_dict] in Hpicks.
  assert (Hd : dict_get_default d "title" JNull = JNull)
    by (unfold dict_get_default; now rewrite Ht).
  rewrite Hd in Hpicks.
  destruct (py_getitem_0 _) as [author|]; [|discriminate].
  destruct (book_picks docs) as [rest|] eqn:Hrest; [|discriminate].
  injection Hpicks as <-.
  destruct (picks_have_titles 1 docs rest Hrest) as [more Hmore].
  unfold extract_books, loads. rewrite Hp.
  cbn [bind as_dict dict_get_default dict_get String.eqb Ascii.eqb Bool.eqb slice2].
  match goal with
  | |- context [firstn 2 (?pick :: rest)] =>
      change (firstn 2 (pick :: rest)) with (pick :: firstn 1 rest)
  end.
  cbn [titles_of as_dict bind]. rewrite Hmore. reflexivity.
Qed.

(** X23: from server to agent: random_joke always returns an object with
    the key "joke" (the provider's joke, or "No joke found"), so the agent
    records exactly that value and never its own default. *)
Theorem joke_reaches_agent :
  forall (data : pydict) (payload : string) (g : gathered_info),
    fetch_json json_loads http_get
      "https://v2.jokeapi.dev/joke/Any?type=single&safe-mode" [] = Ok (JDict data) ->
    json_loads payload
    = Some (JDict [("joke", dict_get_default data "joke" (JStr "No joke found"))]) ->
    random_joke json_loads http_get
    = Ok (JDict [("joke", dict_get_default data "joke" (JStr "No joke found"))])
    /\ g_joke (gather json_loads py_str "random_joke" payload g)
       = dict_get_default data "joke" (JStr "No joke found").
Proof.
  intros data payload g Hfetch Hpayload. split.
  - unfold random_joke. now rewrite Hfetch.
  - change (g_joke (gather json_loads py_str "random_joke" payload g))
      with (recover (extract_field json_loads payload "joke" (JStr "A funny joke!"))
              (JStr "A lighthearted joke")).
    unfold extract_field, loads. now rewrite Hpayload.
Qed.

(** X24: from server to agent: when the trivia provider has no result,
    trivia returns the object with the single key "error", and the agent,
    reading it, records the empty text as trivia entry, which counts as
    nothing gathered. *)
Theorem no_trivia_reaches_agent :
  forall (body : pydict) (payload : string) (g : gathered_info),
    fetch_json json_loads http_get
      "https://opentdb.com/api.php?amount=1&type=multiple" [] = Ok (JDict body) ->
    py_truthy (dict_get_default body "results" (JList [])) = false ->
    json_loads payload = Some (JDict [("error", JStr "no trivia")]) ->
    trivia json_loads http_get html_unescape = Ok (JDict [("error", JStr "no trivia")])
    /\ g_trivia (gather json_loads py_str "trivia" payload g) = JStr ""
    /\ py_truthy (g_trivia (gather json_loads py_str "trivia" payload g)) = false.
Proof.
  intros body payload g Hfetch Hres Hpayload.
  assert (He : g_trivia (gather json_loads py_str "trivia" payload g) = JStr "").
  { change (g_trivia (gather json_loads py_str "trivia" payload g))
      with (recover (extract_trivia json_loads payload) (JStr "Trivia question")).
    unfold extract_trivia, extract_field, loads. now rewrite Hpayload. }
  split; [|split; [exact He | now rewrite He]].
  unfold trivia. rewrite Hfetch. cbn [bind as_dict]. now rewrite Hres.
Qed.

(** X25: a weather payload without temperature and code (the empty
    object get_weather returns when the provider's reply has no "current")
    is recorded as "N/A" degrees and "sunny": the missing code counts as
    code 0. *)
Theorem empty_weather_is_sunny :
  forall (payload : string) (g : gathered_info),
    json_loads payload = Some (JDict []) ->
    py_str (JStr "N/A") = "N/A" ->
    g_weather (gather json_loads py_str "get_weather" payload g)
    = JStr ("N/A" ++ degrees ++ "sunny").
Proof.
  intros payload g Hp Hs.
  change (g_weather (gather json_loads py_str "get_weather" payload g))
    with (recover (extract_weather json_loads py_str payload) (JStr "Weather data received")).
  unfold extract_weather, loads. rewrite Hp.
  cbn [bind as_dict dict_get_default dict_get]. rewrite Hs. reflexivity.
Qed.

End ServerFacts.

(** The provider is down: every request is answered with status 503. *)
Lemma tools_raise_on_error_status_witness :
  trivia Ref.loads (provider 503 "Service Unavailable") unescape_nothing
  = Raise RequestException.
Proof.
  refine (proj2 (proj2 (proj2 (proj2
    (tools_raise_on_error_status Ref.loads (provider 503 "Service Unavailable")
       unescape_nothing (mkResponse 503 "Service Unavailable") JNull JNull JNull JNull
       (fun _ _ => eq_refl) _))))).
  simpl. lia.
Defined.

(** The search answers with a titled book and an untitled one. *)
Lemma book_recs_shape_witness :
  exists picks : list json,
    book_recs Ref.loads (provider 200 books_reply) (JStr "dune") (JInt 2)
    = Ok (JDict [("topic", JStr "dune"); ("results", JList picks)])
    /\ List.length picks = 2.
Proof.
  destruct (book_recs_shape Ref.loads (provider 200 books_reply) (JStr "dune") (JInt 2)
              (JDict [("topic", JStr "dune");
                      ("results",
                       JList [JDict [("title", JStr "Dune"); ("author", JStr "Frank Herbert");
                                     ("year", JInt 1965); ("work", JStr "/works/OL1")];
                              JDict [("title", JNull); ("author", JStr "Unknown");
                                     ("year", JNull); ("work", JStr "/works/OL2")]])])
              eq_refl)
    as (picks & E & _).
  exists picks. injection E as <-. split; reflexivity.
Defined.

(** A document that has only a key. *)
Lemma book_pick_author_witness :
  book_pick (JDict [("key", JStr "/works/OL2")])
  = Ok (JDict [("title", JNull); ("author", JStr "Unknown"); ("year", JNull);
               ("work", JStr "/works/OL2")]).
Proof.
  exact (proj1 (book_pick_author [("key", JStr "/works/OL2")] JNull eq_refl) eq_refl).
Defined.

(** The untitled document comes first. *)
Lemma untitled_book_falls_back_witness :
  g_books
    (gather Ref.loads Ref.str "book_recs"
       (dq_text "{'topic':'dune','results':[{'title':null,'author':'Unknown','year':null,'work':'/works/OL2'}]}")
       no_info)
  = JStr "Mystery book recommendations".
Proof.
  exact (untitled_book_falls_back Ref.loads Ref.str
           (dq_text "{'topic':'dune','results':[{'title':null,'author':'Unknown','year':null,'work':'/works/OL2'}]}")
           (JStr "dune") [("key", JStr "/works/OL2")] []
           [JDict [("title", JNull); ("author", JStr "Unknown"); ("year", JNull);
                   ("work", JStr "/works/OL2")]]
           no_info eq_refl eq_refl eq_refl).
Defined.

(** The joke provider answers with a joke. *)
Lemma joke_reaches_agent_witness :
  g_joke (gather Ref.loads Ref.str "random_joke" (dq_text "{'joke':'Knock knock'}") no_info)
  = JStr "Knock knock".
Proof.
  exact (proj2 (joke_reaches_agent Ref.loads Ref.str (provider 200 joke_reply)
                   [("error", JBool false); ("joke", JStr "Knock knock")]
                   (dq_text "{'joke':'Knock knock'}") no_info eq_refl eq_refl)).
Defined.

(** The trivia provider answers with no result. *)
Lemma no_trivia_reaches_agent_witness :
  g_trivia (gather Ref.loads Ref.str "trivia" (dq_text "{'error':'no trivia'}") no_info)
  = JStr "".
Proof.
  exact (proj1 (proj2 (no_trivia_reaches_agent Ref.loads Ref.str (provider 200 no_trivia_reply)
                   unescape_nothing
                   [("response_code", JInt 1); ("results", JList [])]
                   (dq_text "{'error':'no trivia'}") no_info eq_refl eq_refl eq_refl))).
Defined.

(** The payload [{}]. *)
Lemma empty_weather_is_sunny_witness :
  g_weather (gather Ref.loads Ref.str "get_weather" "{}" no_info)
  = JStr ("N/A" ++ degrees ++ "sunny").
Proof.
  exact (empty_weather_is_sunny Ref.loads Ref.str "{}" no_info eq_refl eq_refl).
Defined.

(* ------------------------------------------------------------------ *)
(** ** A whole session *)

Section SessionBounds.

Variable json_loads : string -> option json.
Variable py_str : json -> string.
Variable decide : list turn -> outcome pydict.
Variable post_reflect : json -> outcome response.
Variable call_tool : list turn -> string -> json -> tool_outcome.
Variable tool_names : list string.

Lemma run_message_grows_from (n : nat) (st0 st : state) (user : string) :
  grows tool_names n st0 st ->
  grows tool_names (n + max_steps) st0
    (fst (run_message json_loads py_str decide post_reflect call_tool tool_names user st)).
Proof.
  intro H. unfold run_message.
  pose proof (for_steps_grows json_loads py_str decide post_reflect call_tool tool_names
                user (seq 0 max_steps) n st0
                (set_gathered no_info (append_turn User (JStr user) st))) as G.
  rewrite length_seq in G. apply G.
  apply grows_set_gathered. apply grows_append_turn; [now left | exact H].
Qed.

Lemma session_loop_grows (lines : list string) :
  forall (n : nat) (st0 st : state),
    grows tool_names n st0 st ->
    grows tool_names (n + max_steps * List.length lines) st0
      (fst (session_loop json_loads py_str decide post_reflect call_tool tool_names lines st)).
Proof.
  induction lines as [|line r IH]; intros n st0 st H; cbn [session_loop fst List.length].
  - apply grows_weaken with n; [lia | exact H].
  - destruct (is_exit (PyStr.strip line)); [apply grows_weaken with n; [lia | exact H]|].
    pose proof (run_message_grows_from n st0 st (PyStr.strip line) H) as G.
    destruct (run_message _ _ _ _ _ _ (PyStr.strip line) st) as [st' e]. cbn [fst] in G.
    destruct e.
    + apply grows_weaken with (n + max_steps + max_steps * List.length r); [lia|].
      now apply IH.
    + cbn [fst]. apply grows_weaken with (n + max_steps); [lia | exact G].
Qed.

(** X26: a session in which the user types [n] lines asks the decision
    model at most [12 * n] times, and every tool it calls is a registered
    one, also when an exception ends it. *)
Theorem session_calls_bounded :
  forall (system_prompt : string) (lines : list string),
    let final := fst (session json_loads py_str decide post_reflect call_tool tool_names
                        system_prompt lines) in
    decide_calls (trace final) <= 12 * List.length lines
    /\ Forall (event_ok tool_names) (trace final).
Proof.
  intros system_prompt lines final. unfold final, session.
  destruct (session_loop_grows lines 0
              (mkState [mkTurn System (JStr system_prompt)] no_info [])
              (mkState [mkTurn System (JStr system_prompt)] no_info [])
              (grows_refl tool_names 0 _))
    as (turns & evs & _ & Ht & _ & Hevs & Hn).
  rewrite Ht. cbn [trace app]. split; [exact Hn | exact Hevs].
Qed.

End SessionBounds.
